(** * The OpenAI model adapter of agent-poc

    A shallow embedding of [src/agent_poc/openai_client.py]: the message
    formatting of both request paths, the non-streaming [generate], the
    streaming generator [stream], the [structured_output] placeholder and
    the factory [create_openai_model].

    Python values live in [pyval].  Dictionaries are objects with an
    identity: a value only holds a reference [VDict l] and the contents sit
    in the heap, so that the in-place updates of the streaming path and the
    sharing between the caller's messages and the built request are
    visible.  Lists are kept as values: the adapter never updates a list in
    place, it only builds new ones. *)

From Stdlib Require Import ZArith QArith.
From stdpp Require Import base option list strings gmap.

Local Open Scope string_scope.
Local Open Scope list_scope.

(** ** Python values *)

Abbreviation loc := nat.

#[warnings="-register-all"]
Inductive pyval : Type :=
  | VNone
  | VBool (b : bool)
  | VInt (n : Z)
  | VFloat (q : Q)
  | VStr (s : string)
  | VList (items : list pyval)
  | VDict (l : loc)
  | VObj (attrs : list (string * pyval)).

Abbreviation pydict := (gmap string pyval).

Inductive exn : Type :=
  | KeyError (key : string)
  | AttributeError (name : string)
  | IndexError
  | TypeError (msg : string)
  | ValueError (msg : string)
  | APIError (msg : string)
  | InvalidRef (l : loc).

(** ** The chat-completion SDK, as far as the adapter looks at it *)

Record request := Request {
  req_model : string;
  req_messages : list pyval;
  req_temperature : pyval;
  req_max_tokens : pyval;
  req_stream : bool;
  req_extra : pydict
}.

Record ChatCompletionMessage := { message_content : option string }.
Record Choice := { message : ChatCompletionMessage; finish_reason : option string }.
Record ChatCompletion := { choices : list Choice }.

Record ChoiceDelta := { delta_content : option string }.
Record ChunkChoice := { delta : ChoiceDelta; chunk_finish_reason : option string }.
(** [chunk_choices = None] is a chunk without a [choices] attribute. *)
Record ChatCompletionChunk := { chunk_choices : option (list ChunkChoice) }.

(** A backend stream: the chunks it delivers, and the transport error that
    cuts it short, if any. *)
Record Stream := { stream_chunks : list ChatCompletionChunk; stream_error : option exn }.

(** [client.chat.completions.create], once for each overload. *)
Record OpenAI := {
  create : request → exn + ChatCompletion;
  create_stream : request → exn + Stream
}.

(** ** Stream events of the host runtime *)

Inductive StreamEvent : Type :=
  | messageStart (role : string)
  | contentBlockStart (toolUse : option pyval) (contentBlockIndex : Z)
  | contentBlockDelta (text : string) (contentBlockIndex : Z)
  | contentBlockStop (contentBlockIndex : Z)
  | messageStop (stopReason : string) (additionalModelResponseFields : option pyval).

(** ** Effects and the world they act on *)

Inductive effect : Type :=
  | LogInfo (line : string)
  | ClientInit (api_key : string)
  | HttpRequest (r : request)
  | Yield (ev : StreamEvent).

Record world := World { heap : list pydict; trace : list effect }.

Inductive outcome (A : Type) : Type :=
  | Ret (a : A)
  | Raise (e : exn).
Arguments Ret {A} a.
Arguments Raise {A} e.

(** State and exceptions: a raised exception keeps the world as it was
    left, as in Python. *)
Definition M (A : Type) : Type := world → world * outcome A.

#[export] Instance M_ret : MRet M := λ A a w, (w, Ret a).
#[export] Instance M_bind : MBind M := λ A B f m w,
  match m w with
  | (w', Ret a) => f a w'
  | (w', Raise e) => (w', Raise e)
  end.

Definition raise {A} (e : exn) : M A := λ w, (w, Raise e).

Definition emit (e : effect) : M unit :=
  λ w, (World (heap w) (trace w ++ [e]), Ret tt).

Definition yield (ev : StreamEvent) : M unit := emit (Yield ev).

(** [for x in xs: body] *)
Fixpoint for_each {A} (body : A → M unit) (xs : list A) : M unit :=
  match xs with
  | [] => mret tt
  | x :: xs' => body x;; for_each body xs'
  end.

(** [for x in xs: ...; acc.append(y)]: a loop whose body ends, on every
    path, by appending one element to the list [acc]. *)
Fixpoint collect {A B} (body : A → M B) (xs : list A) (acc : list B) : M (list B) :=
  match xs with
  | [] => mret acc
  | x :: xs' => y ← body x; collect body xs' (acc ++ [y])
  end.

(** ** Dictionaries in the heap *)

Definition new_dict (d : pydict) : M pyval :=
  λ w, (World (heap w ++ [d]) (trace w), Ret (VDict (length (heap w)))).

Definition deref (l : loc) : M pydict :=
  λ w, match heap w !! l with
       | Some d => (w, Ret d)
       | None => (w, Raise (InvalidRef l))
       end.

(** [k in d] *)
Definition dict_contains (l : loc) (k : string) : M bool :=
  d ← deref l; mret (bool_decide (is_Some (d !! k))).

(** [d[k]] *)
Definition dict_getitem (l : loc) (k : string) : M pyval :=
  d ← deref l;
  match d !! k with
  | Some v => mret v
  | None => raise (KeyError k)
  end.

(** [d.get(k)] *)
Definition dict_get (l : loc) (k : string) : M pyval :=
  d ← deref l; mret (default VNone (d !! k)).

Definition store (l : loc) (d : pydict) : M unit :=
  λ w, (World (<[l := d]> (heap w)) (trace w), Ret tt).

(** [d[k] = v]: the object at [l] is updated where it is. *)
Definition dict_setitem (l : loc) (k : string) (v : pyval) : M unit :=
  d ← deref l; store l (<[k := v]> d).

(** ** Attributes *)

Fixpoint assoc (name : string) (attrs : list (string * pyval)) : option pyval :=
  match attrs with
  | [] => None
  | (k, v) :: attrs' => if decide (k = name) then Some v else assoc name attrs'
  end.

(** Only [VObj] carries the attributes the adapter asks for ([role],
    [content], [text]); no built-in value has them. *)
Definition attr (v : pyval) (name : string) : option pyval :=
  match v with
  | VObj attrs => assoc name attrs
  | _ => None
  end.

Definition hasattr (v : pyval) (name : string) : bool :=
  bool_decide (is_Some (attr v name)).

Definition getattr (v : pyval) (name : string) : M pyval :=
  match attr v name with
  | Some x => mret x
  | None => raise (AttributeError name)
  end.

Definition isinstance_dict (v : pyval) : bool :=
  match v with VDict _ => true | _ => false end.

(** [v == s] for a string literal [s] *)
Definition eq_str (v : pyval) (s : string) : bool :=
  match v with VStr s' => bool_decide (s' = s) | _ => false end.

(** ** What the adapter takes from outside the repository

    [py_repr] is the text [str] gives for a value that is not a string; for
    a container it depends on the dictionaries of the moment, hence the
    heap.  [OpenAI_new] is the SDK's client constructor. *)
Class Externals := {
  py_repr : list pydict → pyval → string;
  OpenAI_new : string → OpenAI
}.

Record OpenAIConfig := {
  openai_api_key : option string;
  openai_model : string;
  openai_max_tokens : Z;
  openai_temperature : Q
}.

Record OpenAIModel := {
  model_name : string;
  temperature : Q;
  max_tokens : Z;
  client : OpenAI
}.

(** ** The adapter *)

Section Adapter.
Context `{Externals}.

(** [str(v)]: a string is its own text, anything else is printed. *)
Definition py_str (h : list pydict) (v : pyval) : string :=
  match v with VStr s => s | _ => py_repr h v end.

Definition str (v : pyval) : M string :=
  λ w, (w, Ret (py_str (heap w) v)).

Definition log_info (line : string) : M unit := emit (LogInfo line).

(** *** [OpenAIModel.__init__] *)
Definition OpenAIModel_init (model api_key : string) (temperature : Q)
    (max_tokens : Z) : M OpenAIModel :=
  emit (ClientInit api_key);;
  log_info ("Initialized OpenAI model: " +:+ model);;
  mret {| model_name := model; temperature := temperature;
          max_tokens := max_tokens; client := OpenAI_new api_key |}.

(** *** [OpenAIModel._format_messages]

    The loop bodies are named, one step per message or block; a step
    returns what the body appends. *)
Definition format_step (msg : pyval) : M pyval :=
  if isinstance_dict msg then
    mret msg
  else if hasattr msg "role" && hasattr msg "content" then
    role ← getattr msg "role";
    content ← getattr msg "content";
    new_dict {[ "role" := role; "content" := content ]}
  else
    text ← str msg;
    new_dict {[ "role" := VStr "user"; "content" := VStr text ]}.

Definition _format_messages (messages : list pyval) : M (list pyval) :=
  collect format_step messages [].

(** Keyword arguments of the two [create] calls.  A key of [**kwargs] that
    repeats an explicit keyword is a [TypeError] of the call itself. *)
Definition kwargs_get (kwargs : pydict) (k : string) (dflt : pyval) : pyval :=
  default dflt (kwargs !! k).

Definition without (keys : list string) (kwargs : pydict) : pydict :=
  filter (λ kv, kv.1 ∉ keys) kwargs.

Definition explicit_keywords : list string := ["model"; "messages"].

Definition check_keywords (extra : pydict) : M unit :=
  if forallb (λ k, bool_decide (extra !! k = None)) explicit_keywords
  then mret tt
  else raise (TypeError "got multiple values for keyword argument").

Definition generate_request (self : OpenAIModel) (formatted_messages : list pyval)
    (kwargs : pydict) : request :=
  {| req_model := model_name self;
     req_messages := formatted_messages;
     req_temperature := kwargs_get kwargs "temperature" (VFloat (temperature self));
     req_max_tokens := kwargs_get kwargs "max_tokens" (VInt (max_tokens self));
     req_stream := false;
     req_extra := without ["temperature"; "max_tokens"] kwargs |}.

Definition stream_request (self : OpenAIModel) (formatted_messages : list pyval)
    (kwargs : pydict) : request :=
  {| req_model := model_name self;
     req_messages := formatted_messages;
     req_temperature := kwargs_get kwargs "temperature" (VFloat (temperature self));
     req_max_tokens := kwargs_get kwargs "max_tokens" (VInt (max_tokens self));
     req_stream := true;
     req_extra := without ["temperature"; "max_tokens"; "stream"] kwargs |}.

(** The call goes out, then the backend answers or fails. *)
Definition call {A} (backend : request → exn + A) (r : request) : M A :=
  check_keywords (req_extra r);;
  emit (HttpRequest r);;
  match backend r with
  | inl e => raise e
  | inr a => mret a
  end.

(** *** [OpenAIModel.generate] *)
Definition generate (self : OpenAIModel) (messages : list pyval)
    (kwargs : pydict) : M string :=
  formatted_messages ← _format_messages messages;
  response ← call (create (client self))
                  (generate_request self formatted_messages kwargs);
  match choices response with
  | [] => raise IndexError
  | choice :: _ =>
      match message_content (message choice) with
      | Some content => mret (if bool_decide (content = "") then "" else content)
      | None => mret ""
      end
  end.

(** *** [OpenAIModel._format_messages_with_system] *)

(** [if 'type' not in block and 'text' in block: block['type'] = 'text']
    (the same statement in both branches) *)
Definition ensure_type (l : loc) : M unit :=
  has_type ← dict_contains l "type";
  untagged_text ← (if (has_type : bool) then mret false else dict_contains l "text");
  if (untagged_text : bool) then dict_setitem l "type" (VStr "text") else mret tt.

Definition text_block (text : pyval) : pydict :=
  {[ "type" := VStr "text"; "text" := text ]}.

(** [v.get(k)] and [v[k]] on an element of [content_blocks] *)
Definition py_get (v : pyval) (k : string) : M pyval :=
  match v with
  | VDict l => dict_get l k
  | _ => raise (AttributeError "get")
  end.

Definition py_getitem (v : pyval) (k : string) : M pyval :=
  match v with
  | VDict l => dict_getitem l k
  | _ => raise (TypeError "indices must be integers")
  end.

(** The block loop of a message that exposes [role] and [content]: *)
Definition object_block (block : pyval) : M pyval :=
  if hasattr block "text" then
    text ← getattr block "text";
    new_dict (text_block text)
  else match block with
  | VDict l =>
      ensure_type l;;
      mret block
  | _ =>
      text ← str block;
      new_dict (text_block (VStr text))
  end.

(** The block loop of a message that is a dict: *)
Definition dict_block (block : pyval) : M pyval :=
  match block with
  | VDict l =>
      ensure_type l;;
      mret block
  | _ =>
      text ← str block;
      new_dict (text_block (VStr text))
  end.

(** [len(content_blocks) == 1 and content_blocks[0].get('type') == 'text'] *)
Definition is_single_text (content_blocks : list pyval) : M bool :=
  match content_blocks with
  | [b] => ty ← py_get b "type"; mret (eq_str ty "text")
  | _ => mret false
  end.

(** [content_blocks[0]['text']] *)
Definition first_text (content_blocks : list pyval) : M pyval :=
  match content_blocks with
  | b :: _ => py_getitem b "text"
  | [] => raise IndexError
  end.

Definition format_step_with_system (msg : pyval) : M pyval :=
  if hasattr msg "role" && hasattr msg "content" then
    content ← getattr msg "content";
    match content with
    | VList blocks =>
        content_blocks ← collect object_block blocks [];
        single_text ← is_single_text content_blocks;
        if (single_text : bool) then
          role ← getattr msg "role";
          text ← first_text content_blocks;
          new_dict {[ "role" := role; "content" := text ]}
        else
          role ← getattr msg "role";
          new_dict {[ "role" := role; "content" := VList content_blocks ]}
    | _ =>
        role ← getattr msg "role";
        text ← str content;
        new_dict {[ "role" := role; "content" := VStr text ]}
    end
  else match msg with
  | VDict l =>
      has_content ← dict_contains l "content";
      content ← (if (has_content : bool) then dict_getitem l "content" else mret VNone);
      match content with
      | VList blocks =>
          content_blocks ← collect dict_block blocks [];
          dict_setitem l "content" (VList content_blocks)
      | _ => mret tt
      end;;
      mret msg
  | _ =>
      text ← str msg;
      new_dict {[ "role" := VStr "user"; "content" := VStr text ]}
  end.

Definition truthy (s : option string) : bool :=
  match s with
  | Some s => negb (bool_decide (s = ""))
  | None => false
  end.

Definition _format_messages_with_system (messages : list pyval)
    (system_prompt : option string) : M (list pyval) :=
  formatted ← (if truthy system_prompt then
                 m ← new_dict {[ "role" := VStr "system";
                                 "content" := VStr (default "" system_prompt) ]};
                 mret [m]
               else mret []);
  collect format_step_with_system messages formatted.

(** *** [OpenAIModel.stream]

    The generator is run to its end; what it yields is in the trace, in
    order, among the other effects. *)
Definition delta_text (chunk : ChatCompletionChunk) : option string :=
  match chunk_choices chunk with
  | Some (choice :: _) =>
      if truthy (delta_content (delta choice))
      then delta_content (delta choice) else None
  | _ => None
  end.

Definition stream (self : OpenAIModel) (messages : list pyval)
    (tool_specs : option (list pyval)) (system_prompt : option string)
    (kwargs : pydict) : M unit :=
  formatted_messages ← _format_messages_with_system messages system_prompt;
  yield (messageStart "assistant");;
  yield (contentBlockStart None 0);;
  stream_response ← call (create_stream (client self))
                         (stream_request self formatted_messages kwargs);
  for_each (λ chunk,
    match delta_text chunk with
    | Some text => yield (contentBlockDelta text 0)
    | None => mret tt
    end) (stream_chunks stream_response);;
  match stream_error stream_response with
  | Some e => raise e
  | None => mret tt
  end;;
  yield (contentBlockStop 0);;
  yield (messageStop "end_turn" None).

(** *** [OpenAIModel.structured_output] *)
Definition structured_output (self : OpenAIModel) (messages : list pyval)
    (schema : pyval) (tool_specs : option (list pyval))
    (system_prompt : option string) (kwargs : pydict) : M pyval :=
  formatted_messages ← _format_messages_with_system messages system_prompt;
  response_text ← generate self messages kwargs;
  new_dict {[ "response" := VStr response_text ]}.

(** *** [create_openai_model] *)
Definition missing_key_message : string :=
  "OpenAI API key is required. Please set OPENAI_API_KEY in your .env file or environment variables.".

Definition create_openai_model (openai_config : OpenAIConfig) : M OpenAIModel :=
  match openai_api_key openai_config with
  | Some api_key =>
      if bool_decide (api_key = "") then raise (ValueError missing_key_message)
      else
        log_info ("Creating OpenAI model: " +:+ openai_model openai_config);;
        OpenAIModel_init (openai_model openai_config) api_key
          (openai_temperature openai_config) (openai_max_tokens openai_config)
  | None => raise (ValueError missing_key_message)
  end.

End Adapter.


(** ** The configuration operations of the adapter

    [float] and [int] are Python's conversions; they are taken from
    outside, with the exception they raise on a value they refuse. *)
Class Conversions := {
  py_float : pyval → exn + Q;
  py_int : pyval → exn + Z
}.

Section Configuration.
Context `{Conversions}.

(** *** [OpenAIModel.get_config] *)
Definition get_config (self : OpenAIModel) : M pyval :=
  new_dict {[ "model" := VStr (model_name self);
              "temperature" := VFloat (temperature self);
              "max_tokens" := VInt (max_tokens self) ]}.

Definition set_temperature (self : OpenAIModel) (t : Q) : OpenAIModel :=
  {| model_name := model_name self; temperature := t;
     max_tokens := max_tokens self; client := client self |}.

Definition set_max_tokens (self : OpenAIModel) (n : Z) : OpenAIModel :=
  {| model_name := model_name self; temperature := temperature self;
     max_tokens := n; client := client self |}.

(** *** [OpenAIModel.update_config]

    The adapter object is passed along: the result is the adapter as the
    call leaves it, also when the call raises. *)
Definition update_config (self : OpenAIModel) (kwargs : pydict)
    : OpenAIModel * outcome unit :=
  let after_temperature :=
    match kwargs !! "temperature" with
    | Some v =>
        match py_float v with
        | inr t => (set_temperature self t, Ret tt)
        | inl e => (self, Raise e)
        end
    | None => (self, Ret tt)
    end in
  match after_temperature with
  | (self, Ret _) =>
      match kwargs !! "max_tokens" with
      | Some v =>
          match py_int v with
          | inr n => (set_max_tokens self n, Ret tt)
          | inl e => (self, Raise e)
          end
      | None => (self, Ret tt)
      end
  | (self, Raise e) => (self, Raise e)
  end.

End Configuration.

(** ** The agent wrapper ([agent.py]), as far as it reads the answer

    [self.agent(user_input)] is the framework's: it is given as [agent],
    which tells, for an input, the heap it leaves and the response it
    returns or the exception it raises.  A log record of an error holds the
    prefix of its line and the exception that is printed after it. *)
Inductive log_record : Type :=
  | RecordInfo (line : string)
  | RecordError (prefix : string) (e : exn).

Section AgentWrapper.
Context `{Externals}.

(** *** [StrandsAgent.run] *)
Definition run (agent : string → list pydict * outcome pyval)
    (user_input : string) (stream : bool) : list log_record * outcome pyval :=
  let started :=
    RecordInfo ("Processing user input: " +:+ String.substring 0 50 user_input +:+ "...") in
  match agent user_input with
  | (h, Ret response) =>
      let agent_response :=
        if hasattr response "message" then
          let message := default VNone (attr response "message") in
          if hasattr message "content" then
            let content_blocks := default VNone (attr message "content") in
            match content_blocks with
            | VList (first_block :: _) =>
                if hasattr first_block "text"
                then default VNone (attr first_block "text")
                else VStr (py_str h first_block)
            | _ => VStr (py_str h content_blocks)
            end
          else VStr (py_str h message)
        else VStr (py_str h response) in
      ([started; RecordInfo "Response generated successfully"], Ret agent_response)
  | (h, Raise e) =>
      ([started; RecordError "Error running agent: " e], Raise e)
  end.

(** *** [StrandsAgent.run_streaming]

    The generator is run to its end: its result is what it has logged,
    what it has yielded, and how it ended. *)
Definition run_streaming (agent : string → list pydict * outcome pyval)
    (user_input : string) : list log_record * list pyval * outcome unit :=
  let started :=
    RecordInfo ("Processing user input with streaming: "
                +:+ String.substring 0 50 user_input +:+ "...") in
  match agent user_input with
  | (h, Ret response) =>
      if hasattr response "message" then
        let message := default VNone (attr response "message") in
        if hasattr message "content" then
          let content_blocks := default VNone (attr message "content") in
          match content_blocks with
          | VList (first_block :: _) =>
              if hasattr first_block "text"
              then ([started], [default VNone (attr first_block "text")], Ret tt)
              else ([started], [VStr (py_str h first_block)], Ret tt)
          | _ => ([started], [VStr (py_str h content_blocks)], Ret tt)
          end
        else ([started], [VStr (py_str h message)], Ret tt)
      else ([started], [VStr (py_str h response)], Ret tt)
  | (h, Raise e) =>
      ([started; RecordError "Error in streaming: " e], [], Raise e)
  end.

End AgentWrapper.
(** ** Sample data *)

Definition offline : OpenAI :=
  {| create := λ _, inl (APIError "offline");
     create_stream := λ _, inl (APIError "offline") |}.

Definition demo_externals : Externals :=
  {| py_repr := λ _ _, "<repr>"; OpenAI_new := λ _, offline |}.

Definition chunk_of (text : option string) (reason : option string) : ChatCompletionChunk :=
  {| chunk_choices := Some [ {| delta := {| delta_content := text |};
                                chunk_finish_reason := reason |} ] |}.

(** A backend that answers every request the same way. *)
Definition canned (answer : option string) (chunks : list ChatCompletionChunk) : OpenAI :=
  {| create := λ _, inr {| choices := [ {| message := {| message_content := answer |};
                                           finish_reason := Some "stop" |} ] |};
     create_stream := λ _, inr {| stream_chunks := chunks; stream_error := None |} |}.

Definition demo_model (backend : OpenAI) : OpenAIModel :=
  {| model_name := "gpt-4o"; temperature := 7 # 10; max_tokens := 4096;
     client := backend |}.

Definition empty_world : world := World [] [].

(** The events a run has yielded, in order. *)
Definition yielded (t : list effect) : list StreamEvent :=
  omap (λ e, match e with Yield ev => Some ev | _ => None end) t.

(** What a message holds under a key, be it a dict or an object with
    attributes. *)
Definition field (h : list pydict) (m : pyval) (k : string) : option pyval :=
  match m with
  | VDict l => h !! l ≫= (.!! k)
  | _ => attr m k
  end.

Definition scalar_message (h : list pydict) (m : pyval) : Prop :=
  is_Some (field h m "role") ∧ ∃ s, field h m "content" = Some (VStr s).

(** [o], read in [h'], is a dict with the role and content of [m] in [h]. *)
Definition same_message (h h' : list pydict) (m o : pyval) : Prop :=
  isinstance_dict o = true ∧
  field h' o "role" = field h m "role" ∧
  field h' o "content" = field h m "content".

(** A message of no shape the adapter knows: neither a dict nor an object
    with both [role] and [content]. *)
Definition unrecognised (m : pyval) : Prop :=
  isinstance_dict m = false ∧ hasattr m "role" && hasattr m "content" = false.

(** The delta events a list of chunks gives rise to. *)
Definition deltas_of (chunks : list ChatCompletionChunk) : list StreamEvent :=
  omap (λ chunk, (λ text, contentBlockDelta text 0) <$> delta_text chunk) chunks.

Definition is_delta0 (ev : StreamEvent) : Prop :=
  ∃ text, ev = contentBlockDelta text 0.

Definition stops_with_end_turn (ev : StreamEvent) : Prop :=
  ∀ reason fields, ev = messageStop reason fields → reason = "end_turn".

(** What a loop collects is appended to the list it starts from. *)
Definition prepend {B} (acc : list B) (r : world * outcome (list B))
    : world * outcome (list B) :=
  match r with
  | (w, Ret out) => (w, Ret (acc ++ out))
  | (w, Raise e) => (w, Raise e)
  end.

(** ** How the streaming path changes the dictionaries it is given *)

(** The effect of [ensure_type] on the contents of a dict. *)
Definition tag (d : pydict) : pydict :=
  match d !! "type", d !! "text" with
  | None, Some _ => <["type" := VStr "text"]> d
  | _, _ => d
  end.

(** A "type" entry is never changed; it can only appear, as "text". *)
Definition type_grows (d d' : pydict) : Prop :=
  (∀ v, d !! "type" = Some v → d' !! "type" = Some v) ∧
  (d !! "type" = None → d' !! "type" = None ∨ d' !! "type" = Some (VStr "text")).

(** Nothing but the "type" entry differs. *)
Definition tagged (d d' : pydict) : Prop :=
  (∀ k, k ≠ "type" → d' !! k = d !! k) ∧ type_grows d d'.

(** A block list after the block loop: as long as before, all dicts, and
    the dicts that were there are still there, the same objects. *)
Definition normalised (bs bs' : list pyval) : Prop :=
  length bs' = length bs ∧
  Forall (λ b, isinstance_dict b = true) bs' ∧
  ∀ i l, bs !! i = Some (VDict l) → bs' !! i = Some (VDict l).

Definition content_grows (d d' : pydict) : Prop :=
  d' !! "content" = d !! "content" ∨
  ∃ bs bs', d !! "content" = Some (VList bs) ∧
            d' !! "content" = Some (VList bs') ∧ normalised bs bs'.

(** What one call can do to a dict. *)
Definition evolved (d d' : pydict) : Prop :=
  (∀ k, k ≠ "type" → k ≠ "content" → d' !! k = d !! k) ∧
  type_grows d d' ∧ content_grows d d'.

(** Every dict of [h] is still there in [h'], changed within [R]. *)
Definition heap_rel (R : pydict → pydict → Prop) (h h' : list pydict) : Prop :=
  ∀ l d, h !! l = Some d → ∃ d', h' !! l = Some d' ∧ R d d'.

(** The dict at [l] has nothing left for [ensure_type] to do. *)
Definition settled (h : list pydict) (l : loc) : Prop :=
  ∃ d, h !! l = Some d ∧ (d !! "text" = None ∨ is_Some (d !! "type")).

(** The dict at [l] is tagged type "text". *)
Definition typed_text (h : list pydict) (l : loc) : Prop :=
  ∃ d, h !! l = Some d ∧ d !! "type" = Some (VStr "text").

(** The dict at [l] is a text block, tagged or still to be tagged. *)
Definition text_like (h : list pydict) (l : loc) : Prop :=
  ∃ d, h !! l = Some d ∧
       (d !! "type" = Some (VStr "text") ∨
        (d !! "type" = None ∧ is_Some (d !! "text"))).

(** What the block loops leave behind for a block [b]: a dict [o], which
    is [b] itself if [b] was a dict, and a new text block otherwise. *)
Definition block_done (h' : list pydict) (b o : pyval) : Prop :=
  match b with
  | VDict l => o = VDict l ∧ settled h' l
  | _ => ∃ r, o = VDict r ∧ typed_text h' r
  end.

(** A block that the loops turn into a text block: anything that is not a
    dict, and a dict that is a text block. *)
Definition text_block_at (h : list pydict) (b : pyval) : Prop :=
  match b with
  | VDict l => text_like h l
  | _ => True
  end.

Definition typed_block (h' : list pydict) (o : pyval) : Prop :=
  ∃ r, o = VDict r ∧ typed_text h' r.

(** What the message loop of the streaming path leaves behind for a
    message [m] that is a dict: the same object [o], whose content, when it
    is a list, holds only dicts that [ensure_type] has been through. *)
Definition message_done (h' : list pydict) (m o : pyval) : Prop :=
  match m with
  | VDict l =>
      o = VDict l ∧ is_Some (h' !! l) ∧
      ∀ d bs, h' !! l = Some d → d !! "content" = Some (VList bs) →
              Forall (λ b, ∃ r, b = VDict r ∧ settled h' r) bs
  | _ => True
  end.

(** A computation that leaves the trace alone. *)
Definition quiet {A} (m : M A) : Prop := ∀ w, trace (m w).1 = trace w.

(** A computation under which the heap only evolves. *)
Definition safe {A} (m : M A) : Prop :=
  ∀ w, heap_rel evolved (heap w) (heap (m w).1).

(** The message a system prompt is turned into. *)
Definition system_message (prompt : string) : pydict :=
  {[ "role" := VStr "system"; "content" := VStr prompt ]}.

(** The text of a block that normalises to a text block, after the spec:
    a block exposing a [text] field gives that value; a dict holding "text"
    and either no "type" or the type "text" gives its "text"; anything else
    that is not a dict gives its string conversion. *)
Definition block_text `{Externals} (h : list pydict) (b : pyval) : option pyval :=
  match b with
  | VDict l =>
      d ← h !! l;
      match d !! "type" with
      | Some ty => if eq_str ty "text" then d !! "text" else None
      | None => d !! "text"
      end
  | _ =>
      match attr b "text" with
      | Some text => Some text
      | None => Some (VStr (py_str h b))
      end
  end.

(** The collapse rule as the specification words it, for any message whose
    content is a list of exactly one block that normalises to a text block:
    the message is given that block's text as its content. *)
Definition collapses_single_text_block `{Externals} : Prop :=
  ∀ m w b text,
    isinstance_dict m = true ∨ hasattr m "role" = true →
    field (heap w) m "content" = Some (VList [b]) →
    block_text (heap w) b = Some text →
    ∃ w' o,
      _format_messages_with_system [m] None w = (w', Ret [o]) ∧
      field (heap w') o "content" = Some text.

(** ** Sample worlds *)

(** One caller dict: [{role: user, content: 2+2?}]. *)
Definition question_world : world :=
  World [ {[ "role" := VStr "user"; "content" := VStr "2+2?" ]} ] [].

(** A caller message (at 1) whose content is the list of one block (at 0)
    that holds a text and no type. *)
Definition one_block_world : world :=
  World [ {[ "text" := VStr "hi" ]};
          {[ "role" := VStr "user"; "content" := VList [VDict 0] ]} ] [].

(** A caller message (at 2) with two blocks, one still untagged. *)
Definition two_block_world : world :=
  World [ {[ "text" := VStr "a" ]};
          {[ "type" := VStr "text"; "text" := VStr "b" ]};
          {[ "role" := VStr "user"; "content" := VList [VDict 0; VDict 1] ]} ] [].

(** A message object with attributes, holding one text block object. *)
Definition one_block_object : pyval :=
  VObj [("role", VStr "user");
        ("content", VList [VObj [("text", VStr "hi")]])].

Definition greeting_object : pyval :=
  VObj [("role", VStr "assistant"); ("content", VStr "hello")].

(** Chunks of a reply cut short by the token limit. *)
Definition truncated_chunks : list ChatCompletionChunk :=
  [ chunk_of (Some "Hel") None; chunk_of (Some "lo") None;
    chunk_of None (Some "length") ].

(** ** More to say about the adapter *)

(** How [_format_messages] passes a message on: a dict as itself, anything
    else as a dict allocated after the heap [h] it started from. *)
Definition passed_on (h : list pydict) (m o : pyval) : Prop :=
  match m with
  | VDict l => o = VDict l
  | _ => ∃ r, o = VDict r ∧ (length h ≤ r)%nat
  end.

(** The texts of the delta events, in order. *)
Definition delta_texts (evs : list StreamEvent) : list string :=
  omap (λ ev, match ev with
              | contentBlockDelta text _ => Some text
              | _ => None
              end) evs.

(** The text the first choice of a chunk carries, empty when there is
    none. *)
Definition first_content (chunk : ChatCompletionChunk) : string :=
  match chunk_choices chunk with
  | Some (choice :: _) => default "" (delta_content (delta choice))
  | _ => ""
  end.

Definition join (texts : list string) : string :=
  foldr String.append "" texts.

(** Nothing terminates the event sequence. *)
Definition unterminated (evs : list StreamEvent) : Prop :=
  Forall (λ ev, match ev with
                | contentBlockStop _ | messageStop _ _ => False
                | _ => True
                end) evs.

(** The references a block list holds are allocated in [h]. *)
Definition allocated_blocks (h : list pydict) (bs : list pyval) : Prop :=
  Forall (λ b, ∀ r, b = VDict r → r < length h) bs.

(** The dicts below [n] hold, as list content, only allocated blocks. *)
Definition closed_below (n : nat) (h : list pydict) : Prop :=
  ∀ l d bs, l < n → h !! l = Some d → d !! "content" = Some (VList bs) →
            allocated_blocks h bs.

(** ** More sample data *)

(** A backend whose call fails. *)
Definition failing (e : exn) : OpenAI :=
  {| create := λ _, inl e; create_stream := λ _, inl e |}.

(** A backend whose stream breaks after some chunks. *)
Definition breaking (chunks : list ChatCompletionChunk) (e : exn) : OpenAI :=
  {| create := λ _, inl e;
     create_stream := λ _, inr {| stream_chunks := chunks; stream_error := Some e |} |}.

(** A backend that answers without any choice. *)
Definition speechless : OpenAI :=
  {| create := λ _, inr {| choices := [] |};
     create_stream := λ _, inr {| stream_chunks := []; stream_error := None |} |}.

(** Conversions that accept numbers only. *)
Definition demo_conversions : Conversions :=
  {| py_float := λ v, match v with
                      | VFloat q => inr q
                      | VInt n => inr (inject_Z n)
                      | _ => inl (TypeError "float() argument must be a string or a real number")
                      end;
     py_int := λ v, match v with
                    | VInt n => inr n
                    | _ => inl (TypeError "int() argument must be a string or a real number")
                    end |}.

(** A dict (at 0) that says type "text" and holds no text, and a message
    object whose only block it is. *)
Definition textless_world : world :=
  World [ {[ "type" := VStr "text" ]} ] [].

Definition textless_message : pyval :=
  VObj [("role", VStr "user"); ("content", VList [VDict 0])].

(** An agent whose result carries its message as a dict, with one text
    block. *)
Definition dict_answer (user_input : string) : list pydict * outcome pyval :=
  ([ {[ "role" := VStr "assistant"; "content" := VList [VDict 1] ]};
     {[ "text" := VStr "Hello" ]} ],
   Ret (VObj [("message", VDict 0)])).

(** ** Running the monad *)

Section Properties.
Context `{Externals}.

Lemma bind_run {A B} (m : M A) (f : A → M B) w :
  (m ≫= f) w = match m w with
               | (w', Ret a) => f a w'
               | (w', Raise e) => (w', Raise e)
               end.
Proof. reflexivity. Qed.

Lemma bind_ret_run {A B} (m : M A) (f : A → M B) w w1 a :
  m w = (w1, Ret a) → (m ≫= f) w = f a w1.
Proof. intros Hm. rewrite bind_run, Hm. reflexivity. Qed.

Lemma bind_raise_run {A B} (m : M A) (f : A → M B) w w1 e :
  m w = (w1, Raise e) → (m ≫= f) w = (w1, Raise e).
Proof. intros Hm. rewrite bind_run, Hm. reflexivity. Qed.

Lemma bind_inv {A B} (m : M A) (f : A → M B) w w' r :
  (m ≫= f) w = (w', r) →
  (∃ w1 a, m w = (w1, Ret a) ∧ f a w1 = (w', r)) ∨
  (∃ e, m w = (w', Raise e) ∧ r = Raise e).
Proof.
  rewrite bind_run. destruct (m w) as [w1 [a|e]]; intros Hr.
  - left. eauto.
  - right. exists e. by inversion Hr.
Qed.

(** *** Loops *)

Lemma collect_app {A B} (body : A → M B) xs ys acc w :
  collect body (xs ++ ys) acc w = (collect body xs acc ≫= collect body ys) w.
Proof.
  revert acc w. induction xs as [|x xs IH]; intros acc w; simpl.
  - reflexivity.
  - rewrite !bind_run. destruct (body x w) as [w1 [y|e]]; [|done].
    rewrite IH. by rewrite bind_run.
Qed.

Lemma collect_snoc {A B} (body : A → M B) xs x acc w w1 out :
  collect body xs acc w = (w1, Ret out) →
  collect body (xs ++ [x]) acc w = (y ← body x; mret (out ++ [y])) w1.
Proof.
  intros Hrun. by rewrite collect_app, (bind_ret_run _ _ _ _ _ Hrun).
Qed.

Lemma collect_acc {A B} (body : A → M B) xs acc w :
  collect body xs acc w = prepend acc (collect body xs [] w).
Proof.
  revert acc w. induction xs as [|x xs IH]; intros acc w; simpl.
  - by rewrite app_nil_r.
  - rewrite !bind_run. destruct (body x w) as [w1 [y|e]]; [|done].
    rewrite (IH (acc ++ [y])), (IH ([] ++ [y])).
    destruct (collect body xs [] w1) as [w2 [out|e]]; simpl; [|done].
    by rewrite <- app_assoc.
Qed.

(** *** Computations that leave the trace alone *)

Lemma quiet_ret {A} (a : A) : quiet (mret a).
Proof. by intros w. Qed.

Lemma quiet_raise {A} e : quiet (@raise A e).
Proof. by intros w. Qed.

Lemma quiet_bind {A B} (m : M A) (f : A → M B) :
  quiet m → (∀ a, quiet (f a)) → quiet (m ≫= f).
Proof.
  intros Hm Hf w. rewrite bind_run. specialize (Hm w).
  destruct (m w) as [w1 [a|e]]; simpl in *; [|done].
  by rewrite Hf.
Qed.

Lemma quiet_collect {A B} (body : A → M B) xs acc :
  (∀ x, quiet (body x)) → quiet (collect body xs acc).
Proof.
  intros Hbody. revert acc. induction xs as [|x xs IH]; intros acc; simpl.
  - apply quiet_ret.
  - apply quiet_bind; auto.
Qed.

Lemma quiet_new_dict d : quiet (new_dict d).
Proof. by intros w. Qed.

Lemma quiet_deref l : quiet (deref l).
Proof. intros w. unfold deref. by destruct (heap w !! l). Qed.

Lemma quiet_store l d : quiet (store l d).
Proof. by intros w. Qed.

Lemma quiet_str v : quiet (str v).
Proof. by intros w. Qed.

Lemma quiet_getattr v name : quiet (getattr v name).
Proof. unfold getattr. destruct (attr v name); [apply quiet_ret | apply quiet_raise]. Qed.

Create HintDb quiet.
#[local] Hint Resolve quiet_ret quiet_raise quiet_new_dict quiet_deref quiet_store
  quiet_str quiet_getattr : quiet.

Ltac quiet_step :=
  match goal with
  | |- quiet (_ ≫= _) => apply quiet_bind; [|intros]
  | |- quiet (collect _ _ _) => apply quiet_collect; intros
  | |- quiet (if ?b then _ else _) => destruct b
  | |- quiet (match ?x with _ => _ end) => destruct x
  | |- quiet _ => solve [eauto with quiet]
  end.

Lemma quiet_dict_contains l k : quiet (dict_contains l k).
Proof. unfold dict_contains. repeat quiet_step. Qed.

Lemma quiet_dict_getitem l k : quiet (dict_getitem l k).
Proof. unfold dict_getitem. repeat quiet_step. Qed.

Lemma quiet_dict_get l k : quiet (dict_get l k).
Proof. unfold dict_get. repeat quiet_step. Qed.

Lemma quiet_dict_setitem l k v : quiet (dict_setitem l k v).
Proof. unfold dict_setitem. repeat quiet_step. Qed.

#[local] Hint Resolve quiet_dict_contains quiet_dict_getitem quiet_dict_get
  quiet_dict_setitem : quiet.

Lemma quiet_ensure_type l : quiet (ensure_type l).
Proof. unfold ensure_type. repeat quiet_step. Qed.

#[local] Hint Resolve quiet_ensure_type : quiet.

Lemma quiet_format_step_with_system msg : quiet (format_step_with_system msg).
Proof.
  unfold format_step_with_system, object_block, dict_block, is_single_text,
    first_text, py_get, py_getitem.
  repeat quiet_step.
Qed.

Lemma quiet_format_messages_with_system messages system_prompt :
  quiet (_format_messages_with_system messages system_prompt).
Proof.
  unfold _format_messages_with_system. apply quiet_bind.
  - repeat quiet_step.
  - intros formatted. apply quiet_collect. intros. apply quiet_format_step_with_system.
Qed.

(** *** The backend call *)

Lemma without_lookup_None keys (kwargs : pydict) k :
  kwargs !! k = None → without keys kwargs !! k = None.
Proof. intros Hk. unfold without. apply map_lookup_filter_None. by left. Qed.

Lemma check_keywords_ok (kwargs : pydict) keys w :
  kwargs !! "model" = None → kwargs !! "messages" = None →
  check_keywords (without keys kwargs) w = (w, Ret tt).
Proof.
  intros Hmodel Hmessages. unfold check_keywords, explicit_keywords. simpl.
  rewrite !bool_decide_eq_true_2 by by apply without_lookup_None.
  reflexivity.
Qed.

Lemma call_run {A} (backend : request → exn + A) r w :
  check_keywords (req_extra r) w = (w, Ret tt) →
  call backend r w =
    (World (heap w) (trace w ++ [HttpRequest r]),
     match backend r with inl e => Raise e | inr a => Ret a end).
Proof.
  intros Hcheck. unfold call.
  rewrite (bind_ret_run _ _ _ _ _ Hcheck). rewrite bind_run. simpl.
  by destruct (backend r).
Qed.

(** *** The events of a stream *)

Lemma yielded_app t1 t2 : yielded (t1 ++ t2) = yielded t1 ++ yielded t2.
Proof. apply omap_app. Qed.

Lemma yielded_Yield evs : yielded (Yield <$> evs) = evs.
Proof.
  induction evs as [|ev evs IH]; [done|].
  unfold yielded in *. simpl. by f_equal.
Qed.

Lemma deltas_of_cons chunk chunks :
  deltas_of (chunk :: chunks) =
    match delta_text chunk with
    | Some text => contentBlockDelta text 0 :: deltas_of chunks
    | None => deltas_of chunks
    end.
Proof. unfold deltas_of. simpl. by destruct (delta_text chunk). Qed.

Lemma deltas_of_delta0 chunks : Forall is_delta0 (deltas_of chunks).
Proof.
  induction chunks as [|chunk chunks IH]; [by constructor|].
  rewrite deltas_of_cons. destruct (delta_text chunk) as [text|]; [|done].
  constructor; [by exists text | done].
Qed.

Lemma deltas_of_length chunks : (length (deltas_of chunks) ≤ length chunks)%nat.
Proof.
  induction chunks as [|chunk chunks IH]; [done|].
  rewrite deltas_of_cons. destruct (delta_text chunk); simpl; lia.
Qed.

Lemma chunk_loop_run chunks w :
  for_each (λ chunk,
    match delta_text chunk with
    | Some text => yield (contentBlockDelta text 0)
    | None => mret tt
    end) chunks w
  = (World (heap w) (trace w ++ (Yield <$> deltas_of chunks)), Ret tt).
Proof.
  revert w. induction chunks as [|chunk chunks IH]; intros [h t].
  - simpl. by rewrite app_nil_r.
  - rewrite deltas_of_cons. simpl. rewrite bind_run.
    destruct (delta_text chunk) as [text|]; simpl.
    + rewrite IH. simpl. by rewrite <- app_assoc.
    + by rewrite IH.
Qed.

Lemma stream_run_ok self messages tool_specs system_prompt kwargs w w1
    formatted chunks :
  _format_messages_with_system messages system_prompt w = (w1, Ret formatted) →
  kwargs !! "model" = None →
  kwargs !! "messages" = None →
  create_stream (client self) (stream_request self formatted kwargs)
    = inr {| stream_chunks := chunks; stream_error := None |} →
  stream self messages tool_specs system_prompt kwargs w =
    (World (heap w1)
       (trace w ++
        [Yield (messageStart "assistant"); Yield (contentBlockStart None 0);
         HttpRequest (stream_request self formatted kwargs)] ++
        (Yield <$> deltas_of chunks) ++
        [Yield (contentBlockStop 0); Yield (messageStop "end_turn" None)]),
     Ret tt).
Proof.
  intros Hfmt Hmodel Hmessages Hbackend.
  pose proof (quiet_format_messages_with_system messages system_prompt w) as Htrace.
  rewrite Hfmt in Htrace. simpl in Htrace.
  unfold stream. rewrite (bind_ret_run _ _ _ _ _ Hfmt).
  rewrite bind_run. simpl. rewrite bind_run. simpl. rewrite bind_run.
  rewrite call_run by by apply check_keywords_ok.
  rewrite Hbackend. simpl. rewrite bind_run, chunk_loop_run. simpl.
  repeat (rewrite bind_run; simpl). unfold yield, emit. simpl.
  rewrite Htrace. repeat rewrite <- app_assoc. reflexivity.
Qed.

Lemma delta0_stops ev : is_delta0 ev → stops_with_end_turn ev.
Proof. intros [text ->] reason fields Heq. discriminate. Qed.

Lemma stream_trace self messages tool_specs system_prompt kwargs w :
  ∃ t, trace (stream self messages tool_specs system_prompt kwargs w).1 = trace w ++ t
       ∧ Forall stops_with_end_turn (yielded t).
Proof.
  pose proof (quiet_format_messages_with_system messages system_prompt w) as Htrace.
  unfold stream. rewrite bind_run.
  destruct (_format_messages_with_system messages system_prompt w)
    as [w1 [formatted|e]]; simpl in Htrace.
  2:{ exists []. simpl. rewrite app_nil_r. split; [done | constructor]. }
  rewrite bind_run. simpl. rewrite bind_run. simpl. rewrite bind_run.
  unfold call at 1. rewrite bind_run. unfold check_keywords.
  assert (Hstart : Forall stops_with_end_turn
            [messageStart "assistant"; contentBlockStart None 0]).
  { repeat constructor; intros reason fields Heq; discriminate. }
  destruct (forallb _ explicit_keywords); simpl.
  2:{ eexists. rewrite Htrace, <- app_assoc. split; [reflexivity | exact Hstart]. }
  rewrite bind_run. simpl.
  destruct (create_stream (client self) _) as [e|[chunks err]]; simpl.
  { eexists. rewrite Htrace, <- !app_assoc. split; [reflexivity | exact Hstart]. }
  rewrite bind_run, chunk_loop_run. simpl.
  assert (Hdeltas : Forall stops_with_end_turn (deltas_of chunks)).
  { eapply Forall_impl; [apply deltas_of_delta0 | apply delta0_stops]. }
  destruct err as [e|]; repeat (rewrite bind_run; simpl); unfold yield, emit; simpl.
  - eexists. rewrite Htrace, <- !app_assoc. split; [reflexivity|].
    simpl. rewrite yielded_Yield. by repeat constructor.
  - eexists. rewrite Htrace, <- !app_assoc. split; [reflexivity|].
    simpl. rewrite yielded_app, yielded_Yield. simpl.
    repeat (apply Forall_cons; split; [intros reason fields Heq; discriminate|]).
    apply Forall_app. split; [done|].
    repeat constructor.
    + intros reason fields Heq; discriminate.
    + intros reason fields Heq. by inversion Heq.
Qed.

Lemma stream_sends self messages tool_specs system_prompt kwargs w w1 formatted :
  _format_messages_with_system messages system_prompt w = (w1, Ret formatted) →
  kwargs !! "model" = None →
  kwargs !! "messages" = None →
  ∃ t,
    trace (stream self messages tool_specs system_prompt kwargs w).1 =
      trace w ++
      [Yield (messageStart "assistant"); Yield (contentBlockStart None 0);
       HttpRequest (stream_request self formatted kwargs)] ++ t.
Proof.
  intros Hfmt Hmodel Hmessages.
  pose proof (quiet_format_messages_with_system messages system_prompt w) as Htrace.
  rewrite Hfmt in Htrace. simpl in Htrace.
  unfold stream. rewrite (bind_ret_run _ _ _ _ _ Hfmt).
  rewrite bind_run. simpl. rewrite bind_run. simpl. rewrite bind_run.
  rewrite call_run by by apply check_keywords_ok.
  destruct (create_stream (client self) _) as [e|[chunks err]]; simpl.
  { exists []. by rewrite Htrace, <- !app_assoc. }
  rewrite bind_run, chunk_loop_run. simpl.
  destruct err as [e|]; repeat (rewrite bind_run; simpl); unfold yield, emit; simpl;
    eexists; rewrite Htrace, <- !app_assoc; simpl; reflexivity.
Qed.

(** C1.  Once the request is built and the backend stream delivers its
    chunks to the end, whatever they are and however many (none included),
    [stream] yields exactly: one message-start, one content-block-start,
    the content-block-delta events of the chunks, one content-block-stop,
    one message-stop, in this order; every content-block event carries
    index 0. *)
Theorem stream_event_order self messages tool_specs system_prompt kwargs w w1
    formatted chunks :
  _format_messages_with_system messages system_prompt w = (w1, Ret formatted) →
  kwargs !! "model" = None →
  kwargs !! "messages" = None →
  create_stream (client self) (stream_request self formatted kwargs)
    = inr {| stream_chunks := chunks; stream_error := None |} →
  ∃ w' deltas,
    stream self messages tool_specs system_prompt kwargs w = (w', Ret tt) ∧
    yielded (trace w') =
      yielded (trace w) ++
      [messageStart "assistant"; contentBlockStart None 0] ++
      deltas ++
      [contentBlockStop 0; messageStop "end_turn" None] ∧
    deltas = deltas_of chunks ∧
    Forall is_delta0 deltas ∧
    (length deltas ≤ length chunks)%nat.
Proof.
  intros Hfmt Hmodel Hmessages Hbackend.
  eexists _, (deltas_of chunks). split.
  { by eapply stream_run_ok. }
  simpl. rewrite yielded_app. simpl. rewrite yielded_app, yielded_Yield.
  split_and!; auto using deltas_of_delta0, deltas_of_length.
Qed.

(** C10.  Every message-stop event that [stream] yields carries the stop
    reason "end_turn"; when the backend stream is delivered to its end, the
    last event is that message-stop, whatever finish reason the chunks
    report. *)
Theorem stop_reason_always_end_turn self messages tool_specs system_prompt kwargs w :
  ∃ t,
    trace (stream self messages tool_specs system_prompt kwargs w).1 = trace w ++ t ∧
    Forall stops_with_end_turn (yielded t) ∧
    ∀ w1 formatted chunks,
      _format_messages_with_system messages system_prompt w = (w1, Ret formatted) →
      kwargs !! "model" = None →
      kwargs !! "messages" = None →
      create_stream (client self) (stream_request self formatted kwargs)
        = inr {| stream_chunks := chunks; stream_error := None |} →
      last (yielded t) = Some (messageStop "end_turn" None).
Proof.
  destruct (stream_trace self messages tool_specs system_prompt kwargs w)
    as (t & Ht & Hstops).
  exists t. split_and!; [done..|].
  intros w1 formatted chunks Hfmt Hmodel Hmessages Hbackend.
  rewrite (stream_run_ok _ _ tool_specs _ _ _ _ _ _ Hfmt Hmodel Hmessages Hbackend)
    in Ht.
  simpl in Ht. apply app_inv_head in Ht. subst t.
  simpl. rewrite yielded_app, yielded_Yield. simpl.
  rewrite !app_comm_cons, last_app_cons. reflexivity.
Qed.

(** C2.  When the backend answers, [generate] returns the text of the first
    choice, and the empty string when that text is absent ([None] or
    empty). *)
Theorem generate_returns_first_choice self messages kwargs w w1 formatted
    response choice rest :
  _format_messages messages w = (w1, Ret formatted) →
  kwargs !! "model" = None →
  kwargs !! "messages" = None →
  create (client self) (generate_request self formatted kwargs) = inr response →
  choices response = choice :: rest →
  (generate self messages kwargs w).2
    = Ret (default "" (message_content (message choice))) ∧
  (message_content (message choice) = None ∨
   message_content (message choice) = Some "" →
   (generate self messages kwargs w).2 = Ret "").
Proof.
  intros Hfmt Hmodel Hmessages Hbackend Hchoices.
  assert (Hgen : (generate self messages kwargs w).2
                 = Ret (default "" (message_content (message choice)))).
  { unfold generate. rewrite (bind_ret_run _ _ _ _ _ Hfmt), bind_run.
    rewrite call_run by by apply check_keywords_ok.
    rewrite Hbackend, Hchoices.
    destruct (message_content (message choice)) as [content|]; simpl; [|done].
    case_bool_decide; by subst. }
  split; [done|].
  intros [Hnone|Hempty]; rewrite Hgen; [by rewrite Hnone | by rewrite Hempty].
Qed.

(** C4.  With no API key in the configuration ([None] or empty),
    [create_openai_model] raises [ValueError] and leaves the world as it
    was: no client is constructed, no line is logged, no request goes out,
    and no model is returned. *)
Theorem create_openai_model_requires_key openai_config w :
  openai_api_key openai_config = None ∨ openai_api_key openai_config = Some "" →
  create_openai_model openai_config w = (w, Raise (ValueError missing_key_message)).
Proof.
  intros [Hkey|Hkey]; unfold create_openai_model; by rewrite Hkey.
Qed.

(** With a key, the model is built: the client is constructed and both
    lines are logged. *)
Lemma create_openai_model_with_key openai_config api_key w :
  openai_api_key openai_config = Some api_key →
  api_key ≠ "" →
  create_openai_model openai_config w =
    (World (heap w)
       (trace w ++
        [LogInfo ("Creating OpenAI model: " +:+ openai_model openai_config);
         ClientInit api_key;
         LogInfo ("Initialized OpenAI model: " +:+ openai_model openai_config)]),
     Ret {| model_name := openai_model openai_config;
            temperature := openai_temperature openai_config;
            max_tokens := openai_max_tokens openai_config;
            client := OpenAI_new api_key |}).
Proof.
  intros Hkey Hne. unfold create_openai_model. rewrite Hkey.
  rewrite bool_decide_eq_false_2 by done.
  unfold OpenAIModel_init, log_info, emit. repeat (rewrite bind_run; simpl).
  by rewrite <- !app_assoc.
Qed.

(** C8.  [structured_output] returns exactly when the request formatting
    and then [generate] on the same messages return, and what it returns is
    a new dict holding the single key "response" with the generated text;
    the schema has no part in it. *)
Theorem structured_output_wraps_generate self messages schema tool_specs
    system_prompt kwargs w :
  (∀ schema',
     structured_output self messages schema' tool_specs system_prompt kwargs w
     = structured_output self messages schema tool_specs system_prompt kwargs w) ∧
  (∀ w' result,
     structured_output self messages schema tool_specs system_prompt kwargs w
       = (w', Ret result) ↔
     ∃ w1 formatted w2 text,
       _format_messages_with_system messages system_prompt w = (w1, Ret formatted) ∧
       generate self messages kwargs w1 = (w2, Ret text) ∧
       result = VDict (length (heap w2)) ∧
       w' = World (heap w2 ++ [ {[ "response" := VStr text ]} ]) (trace w2)).
Proof.
  split; [done|].
  intros w' result. unfold structured_output. split.
  - intros Hrun.
    apply bind_inv in Hrun as [(w1 & formatted & Hfmt & Hrun)|(e & _ & ?)]; [|done].
    apply bind_inv in Hrun as [(w2 & text & Hgen & Hrun)|(e & _ & ?)]; [|done].
    unfold new_dict in Hrun. inversion Hrun; subst.
    by exists w1, formatted, w2, text.
  - intros (w1 & formatted & w2 & text & Hfmt & Hgen & -> & ->).
    rewrite (bind_ret_run _ _ _ _ _ Hfmt), (bind_ret_run _ _ _ _ _ Hgen).
    reflexivity.
Qed.

(** *** The non-streaming request *)

Lemma field_app h hx m k v :
  field h m k = Some v → field (h ++ hx) m k = Some v.
Proof.
  destruct m; simpl; try done.
  destruct (h !! l) as [d|] eqn:Hl; simpl; [|done].
  intros Hk. by rewrite (lookup_app_l_Some _ _ _ _ Hl).
Qed.

Lemma scalar_message_app h hx m :
  scalar_message h m → scalar_message (h ++ hx) m.
Proof.
  intros [[r Hr] [s Hs]]. split.
  - exists r. by apply field_app.
  - exists s. by apply field_app.
Qed.

Lemma same_message_app h h' hx m o :
  scalar_message h m → same_message h h' m o → same_message h (h' ++ hx) m o.
Proof.
  intros [[r Hr] [s Hs]] (Hdict & Hrole & Hcontent).
  rewrite Hr in Hrole. rewrite Hs in Hcontent.
  split_and!; [done| |].
  - rewrite Hr. by apply field_app.
  - rewrite Hs. by apply field_app.
Qed.

Lemma same_message_base h hx h' m o :
  scalar_message h m → same_message (h ++ hx) h' m o → same_message h h' m o.
Proof.
  intros [[r Hr] [s Hs]] (Hdict & Hrole & Hcontent).
  rewrite (field_app _ hx _ _ _ Hr) in Hrole.
  rewrite (field_app _ hx _ _ _ Hs) in Hcontent.
  split_and!; [done| |]; congruence.
Qed.

Lemma format_step_scalar m w :
  scalar_message (heap w) m →
  ∃ hx o, format_step m w = (World (heap w ++ hx) (trace w), Ret o)
          ∧ same_message (heap w) (heap w ++ hx) m o.
Proof.
  intros [[r Hr] [s Hs]]. unfold format_step.
  destruct m; simpl in Hr, Hs; try done.
  - exists [], (VDict l). simpl. rewrite app_nil_r. by destruct w.
  - unfold hasattr, getattr. simpl. rewrite Hr, Hs.
    rewrite !bool_decide_eq_true_2 by eauto. simpl.
    eexists [_], _. split; [reflexivity|].
    split_and!; [done|..]; unfold field;
      rewrite lookup_app_r, Nat.sub_diag by done; simpl; rewrite ?Hr, ?Hs;
      by simplify_map_eq.
Qed.

Lemma format_messages_loop messages formatted h0 hpre t :
  Forall (scalar_message h0) messages →
  ∃ hx out,
    collect format_step messages formatted (World (h0 ++ hpre) t)
      = (World (h0 ++ hpre ++ hx) t, Ret (formatted ++ out)) ∧
    Forall2 (same_message h0 (h0 ++ hpre ++ hx)) messages out.
Proof.
  revert formatted hpre.
  induction messages as [|m messages IH]; intros formatted hpre Hscalar.
  - exists [], []. simpl. rewrite !app_nil_r. split; [done | constructor].
  - apply Forall_cons in Hscalar as [Hm Hrest].
    destruct (format_step_scalar m (World (h0 ++ hpre) t))
      as (hx & o & Hstep & Hsame); [by apply scalar_message_app|].
    simpl in Hstep, Hsame. rewrite <- app_assoc in Hstep, Hsame.
    destruct (IH (formatted ++ [o]) (hpre ++ hx) Hrest) as (hx' & out & Hloop & Hall).
    rewrite <- !app_assoc in Hloop, Hall.
    exists (hx ++ hx'), (o :: out). split.
    + simpl. rewrite (bind_ret_run _ _ _ _ _ Hstep), Hloop.
      by rewrite <- (app_assoc formatted).
    + constructor; [|done].
      apply same_message_base in Hsame; [|done].
      rewrite !app_assoc. apply same_message_app; [done|].
      by rewrite <- app_assoc.
Qed.

(** C5.  For messages that all carry a role and scalar string content, as
    dicts or as objects with attributes, [_format_messages] returns a list
    of the same length whose entries are dicts with the role and content
    of the corresponding message; [generate] sends out exactly this list. *)
Theorem format_messages_preserves_scalar messages w :
  Forall (scalar_message (heap w)) messages →
  ∃ w' formatted,
    _format_messages messages w = (w', Ret formatted) ∧
    length formatted = length messages ∧
    Forall2 (same_message (heap w) (heap w')) messages formatted ∧
    ∀ self kwargs,
      kwargs !! "model" = None →
      kwargs !! "messages" = None →
      (generate self messages kwargs w).1
        = World (heap w')
            (trace w ++ [HttpRequest (generate_request self formatted kwargs)]) ∧
      req_messages (generate_request self formatted kwargs) = formatted.
Proof.
  intros Hscalar. destruct w as [h t]. simpl in Hscalar.
  destruct (format_messages_loop messages [] h [] t Hscalar)
    as (hx & out & Hloop & Hall).
  rewrite app_nil_r in Hloop. simpl in Hloop, Hall.
  exists (World (h ++ hx) t), out. split_and!; [done| |done|].
  - symmetry. by eapply Forall2_length.
  - intros self kwargs Hmodel Hmessages. split; [|done].
    unfold generate, _format_messages. rewrite (bind_ret_run _ _ _ _ _ Hloop).
    rewrite bind_run, call_run by by apply check_keywords_ok. simpl.
    destruct (create (client self) _) as [e|response]; [done|].
    destruct (choices response) as [|choice rest]; [done|].
    by destruct (message_content (message choice)).
Qed.

(** *** Messages of unknown shape *)

Lemma format_step_unrecognised m w :
  unrecognised m →
  format_step m w =
    (World (heap w ++ [ {[ "role" := VStr "user";
                           "content" := VStr (py_str (heap w) m) ]} ]) (trace w),
     Ret (VDict (length (heap w)))).
Proof.
  intros [Hdict Hattrs]. unfold format_step. by rewrite Hdict, Hattrs.
Qed.

Lemma format_step_with_system_unrecognised m w :
  unrecognised m →
  format_step_with_system m w =
    (World (heap w ++ [ {[ "role" := VStr "user";
                           "content" := VStr (py_str (heap w) m) ]} ]) (trace w),
     Ret (VDict (length (heap w)))).
Proof.
  intros [Hdict Hattrs]. unfold format_step_with_system. rewrite Hattrs.
  by destruct m.
Qed.

Lemma format_messages_with_system_snoc messages m system_prompt w w1 formatted :
  _format_messages_with_system messages system_prompt w = (w1, Ret formatted) →
  _format_messages_with_system (messages ++ [m]) system_prompt w
    = (o ← format_step_with_system m; mret (formatted ++ [o])) w1.
Proof.
  unfold _format_messages_with_system. rewrite !bind_run.
  destruct (_ w) as [w0 [formatted0|e]]; [|done].
  apply collect_snoc.
Qed.

(** C7.  A message that is neither a dict nor an object with role and
    content does not make either formatting path raise: after any messages
    that were formatted, it is turned into a new user-role message whose
    content is its string conversion. *)
Theorem unrecognised_message_coerced messages m w :
  unrecognised m →
  (∀ w1 formatted,
     _format_messages messages w = (w1, Ret formatted) →
     _format_messages (messages ++ [m]) w =
       (World (heap w1 ++ [ {[ "role" := VStr "user";
                               "content" := VStr (py_str (heap w1) m) ]} ])
              (trace w1),
        Ret (formatted ++ [VDict (length (heap w1))]))) ∧
  (∀ system_prompt w1 formatted,
     _format_messages_with_system messages system_prompt w = (w1, Ret formatted) →
     _format_messages_with_system (messages ++ [m]) system_prompt w =
       (World (heap w1 ++ [ {[ "role" := VStr "user";
                               "content" := VStr (py_str (heap w1) m) ]} ])
              (trace w1),
        Ret (formatted ++ [VDict (length (heap w1))]))).
Proof.
  intros Hm. split.
  - intros w1 formatted Hrun. unfold _format_messages in *.
    rewrite (collect_snoc _ _ _ _ _ _ _ Hrun).
    by rewrite (bind_ret_run _ _ _ _ _ (format_step_unrecognised m w1 Hm)).
  - intros system_prompt w1 formatted Hrun.
    rewrite (format_messages_with_system_snoc _ _ _ _ _ _ Hrun).
    by rewrite (bind_ret_run _ _ _ _ _ (format_step_with_system_unrecognised m w1 Hm)).
Qed.

(** *** The relations between heaps *)

Lemma type_grows_refl d : type_grows d d.
Proof. split; auto. Qed.

Lemma type_grows_trans d1 d2 d3 :
  type_grows d1 d2 → type_grows d2 d3 → type_grows d1 d3.
Proof.
  intros [Hsome12 Hnone12] [Hsome23 Hnone23]. split.
  - auto.
  - intros Hnone. destruct (Hnone12 Hnone) as [Hn|Hs]; auto.
Qed.

Lemma tagged_refl d : tagged d d.
Proof. split; [done | apply type_grows_refl]. Qed.

Lemma tagged_trans d1 d2 d3 : tagged d1 d2 → tagged d2 d3 → tagged d1 d3.
Proof.
  intros [Hk12 Ht12] [Hk23 Ht23]. split.
  - intros k Hk. by rewrite Hk23, Hk12.
  - by eapply type_grows_trans.
Qed.

Lemma tagged_tag d : tagged d (tag d).
Proof.
  unfold tag. destruct (d !! "type") as [ty|] eqn:Hty; [apply tagged_refl|].
  destruct (d !! "text") as [tx|] eqn:Htx; [|apply tagged_refl].
  split; [|split].
  - intros k Hk. by rewrite lookup_insert_ne.
  - intros v Hv. congruence.
  - intros _. right. by rewrite lookup_insert_eq.
Qed.

Lemma normalised_refl bs :
  Forall (λ b, isinstance_dict b = true) bs → normalised bs bs.
Proof. intros Hdicts. unfold normalised. split_and!; auto. Qed.

Lemma normalised_trans bs1 bs2 bs3 :
  normalised bs1 bs2 → normalised bs2 bs3 → normalised bs1 bs3.
Proof.
  intros (Hlen12 & _ & Hkeep12) (Hlen23 & Hdict & Hkeep23).
  unfold normalised. split_and!; [congruence | done | auto].
Qed.

(** Normalising a list of dicts gives the same list. *)
Lemma normalised_dicts bs bs' :
  Forall (λ b, isinstance_dict b = true) bs → normalised bs bs' → bs' = bs.
Proof.
  intros Hdicts (Hlen & _ & Hkeep). apply list_eq. intros i.
  destruct (bs !! i) as [b|] eqn:Hb.
  - rewrite Forall_lookup in Hdicts. specialize (Hdicts i b Hb).
    destruct b; try done. by apply Hkeep.
  - apply lookup_ge_None in Hb. apply lookup_ge_None. lia.
Qed.

Lemma content_grows_trans d1 d2 d3 :
  content_grows d1 d2 → content_grows d2 d3 → content_grows d1 d3.
Proof.
  intros [Heq12|(bs & bs' & H1 & H2 & Hn12)] [Heq23|(cs & cs' & H3 & H4 & Hn23)].
  - left. congruence.
  - right. exists cs, cs'. split_and!; congruence.
  - right. exists bs, bs'. split_and!; congruence.
  - right. exists bs, cs'. split_and!; [done..|].
    assert (cs = bs') as -> by congruence. by eapply normalised_trans.
Qed.

Lemma evolved_refl d : evolved d d.
Proof. unfold evolved. split_and!; [done | apply type_grows_refl | by left]. Qed.

Lemma evolved_trans d1 d2 d3 : evolved d1 d2 → evolved d2 d3 → evolved d1 d3.
Proof.
  intros (Hk12 & Ht12 & Hc12) (Hk23 & Ht23 & Hc23). unfold evolved. split_and!.
  - intros k Hk1 Hk2. by rewrite Hk23, Hk12.
  - by eapply type_grows_trans.
  - by eapply content_grows_trans.
Qed.

Lemma tagged_evolved d d' : tagged d d' → evolved d d'.
Proof.
  intros [Hk Ht]. unfold evolved. split_and!; [auto | done | left; by apply Hk].
Qed.

Lemma heap_rel_refl R h : (∀ d, R d d) → heap_rel R h h.
Proof. intros HR l d Hl. eauto. Qed.

Lemma heap_rel_trans R h1 h2 h3 :
  (∀ d1 d2 d3, R d1 d2 → R d2 d3 → R d1 d3) →
  heap_rel R h1 h2 → heap_rel R h2 h3 → heap_rel R h1 h3.
Proof.
  intros HR H12 H23 l d1 Hl.
  destruct (H12 l d1 Hl) as (d2 & Hl2 & HR12).
  destruct (H23 l d2 Hl2) as (d3 & Hl3 & HR23). eauto.
Qed.

Lemma heap_rel_mono (R R' : pydict → pydict → Prop) h h' :
  (∀ d d', R d d' → R' d d') → heap_rel R h h' → heap_rel R' h h'.
Proof.
  intros HRR Hrel l d Hl. destruct (Hrel l d Hl) as (d' & Hl' & Hd). eauto.
Qed.

Lemma heap_rel_alloc R h hx : (∀ d, R d d) → heap_rel R h (h ++ hx).
Proof.
  intros HR l d Hl. exists d. split; [by apply lookup_app_l_Some | done].
Qed.

Lemma heap_rel_update R h l d d' :
  (∀ d, R d d) → h !! l = Some d → R d d' → heap_rel R h (<[l := d']> h).
Proof.
  intros HR Hl Hd l0 d0 Hl0. destruct (decide (l0 = l)) as [->|Hne].
  - exists d'. rewrite list_lookup_insert_eq by by eapply lookup_lt_Some.
    split; [done | congruence].
  - exists d0. by rewrite list_lookup_insert_ne.
Qed.

Lemma tagged_heap_evolved h h' : heap_rel tagged h h' → heap_rel evolved h h'.
Proof. apply heap_rel_mono, tagged_evolved. Qed.

Lemma evolved_heap_trans h1 h2 h3 :
  heap_rel evolved h1 h2 → heap_rel evolved h2 h3 → heap_rel evolved h1 h3.
Proof. apply heap_rel_trans, evolved_trans. Qed.

Lemma tagged_heap_trans h1 h2 h3 :
  heap_rel tagged h1 h2 → heap_rel tagged h2 h3 → heap_rel tagged h1 h3.
Proof. apply heap_rel_trans, tagged_trans. Qed.

(** What stays true while the heap evolves *)

Lemma settled_evolved h h' l : settled h l → heap_rel evolved h h' → settled h' l.
Proof.
  intros (d & Hl & Hd) Hrel.
  destruct (Hrel l d Hl) as (d' & Hl' & Hk & [Hsome Hnone] & _).
  exists d'. split; [done|]. destruct Hd as [Htext|[ty Hty]].
  - left. by rewrite Hk.
  - right. exists ty. auto.
Qed.

Lemma typed_text_evolved h h' l :
  typed_text h l → heap_rel evolved h h' → typed_text h' l.
Proof.
  intros (d & Hl & Hd) Hrel.
  destruct (Hrel l d Hl) as (d' & Hl' & _ & [Hsome _] & _).
  exists d'. auto.
Qed.

Lemma text_like_evolved h h' l :
  text_like h l → heap_rel evolved h h' → text_like h' l.
Proof.
  intros (d & Hl & Hd) Hrel.
  destruct (Hrel l d Hl) as (d' & Hl' & Hk & [Hsome Hnone] & _).
  exists d'. split; [done|]. destruct Hd as [Hty|[Hty Htext]].
  - left. auto.
  - destruct (Hnone Hty) as [Hn|Hs]; [right | by left].
    split; [done|]. by rewrite Hk.
Qed.

Lemma text_like_settled h l : text_like h l → settled h l → typed_text h l.
Proof.
  intros (d & Hl & Hlike) (d0 & Hl0 & Hset).
  assert (d0 = d) as -> by congruence. exists d. split; [done|].
  destruct Hlike as [Hty|[Hty [tx Htx]]]; [done|].
  destruct Hset as [Hnone|[ty Hsome]]; congruence.
Qed.

Lemma typed_text_settled h l : typed_text h l → settled h l.
Proof. intros (d & Hl & Hty). exists d. split; [done|]. right. eauto. Qed.

(** *** Running the primitives *)

Lemma world_eta w : World (heap w) (trace w) = w.
Proof. by destruct w. Qed.

Lemma deref_run l w d : heap w !! l = Some d → deref l w = (w, Ret d).
Proof. intros Hl. unfold deref. by rewrite Hl. Qed.

Lemma deref_fail l w : heap w !! l = None → deref l w = (w, Raise (InvalidRef l)).
Proof. intros Hl. unfold deref. by rewrite Hl. Qed.

Lemma dict_contains_run l k w d :
  heap w !! l = Some d →
  dict_contains l k w = (w, Ret (bool_decide (is_Some (d !! k)))).
Proof. intros Hl. unfold dict_contains. by rewrite (bind_ret_run _ _ _ _ _ (deref_run _ _ _ Hl)). Qed.

Lemma dict_get_run l k w d :
  heap w !! l = Some d → dict_get l k w = (w, Ret (default VNone (d !! k))).
Proof. intros Hl. unfold dict_get. by rewrite (bind_ret_run _ _ _ _ _ (deref_run _ _ _ Hl)). Qed.

Lemma dict_getitem_run l k w d v :
  heap w !! l = Some d → d !! k = Some v → dict_getitem l k w = (w, Ret v).
Proof.
  intros Hl Hk. unfold dict_getitem.
  by rewrite (bind_ret_run _ _ _ _ _ (deref_run _ _ _ Hl)), Hk.
Qed.

Lemma dict_setitem_run l k v w d :
  heap w !! l = Some d →
  dict_setitem l k v w = (World (<[l := <[k := v]> d]> (heap w)) (trace w), Ret tt).
Proof. intros Hl. unfold dict_setitem. by rewrite (bind_ret_run _ _ _ _ _ (deref_run _ _ _ Hl)). Qed.

Lemma ensure_type_run l w d :
  heap w !! l = Some d →
  ensure_type l w = (World (<[l := tag d]> (heap w)) (trace w), Ret tt).
Proof.
  intros Hl. unfold ensure_type, tag.
  rewrite (bind_ret_run _ _ _ _ _ (dict_contains_run _ "type" _ _ Hl)).
  destruct (d !! "type") as [ty|] eqn:Hty.
  - rewrite bool_decide_eq_true_2 by eauto. simpl.
    by rewrite list_insert_id, world_eta.
  - rewrite bool_decide_eq_false_2 by (intros [? ?]; done).
    rewrite (bind_ret_run _ _ _ _ _ (dict_contains_run _ "text" _ _ Hl)).
    destruct (d !! "text") as [tx|] eqn:Htx.
    + rewrite bool_decide_eq_true_2 by eauto. by apply dict_setitem_run.
    + rewrite bool_decide_eq_false_2 by (intros [? ?]; done). simpl.
      by rewrite list_insert_id, world_eta.
Qed.

Lemma ensure_type_fail l w :
  heap w !! l = None → ensure_type l w = (w, Raise (InvalidRef l)).
Proof.
  intros Hl. unfold ensure_type, dict_contains.
  by rewrite (bind_raise_run _ _ _ _ _ (bind_raise_run _ _ _ _ _ (deref_fail _ _ Hl))).
Qed.

Lemma tag_settled h l d : l < length h → settled (<[l := tag d]> h) l.
Proof.
  intros Hlt. exists (tag d). split; [by apply list_lookup_insert_eq|].
  unfold tag. destruct (d !! "type") as [ty|] eqn:Hty; [right; eauto|].
  destruct (d !! "text") as [tx|] eqn:Htx; [|by left].
  right. exists (VStr "text"). by rewrite lookup_insert_eq.
Qed.

Lemma new_text_block_typed h text :
  typed_text (h ++ [text_block text]) (length h).
Proof.
  exists (text_block text). split.
  - by rewrite lookup_app_r, Nat.sub_diag.
  - unfold text_block. by rewrite lookup_insert_eq.
Qed.

(** *** One block *)

Lemma block_done_evolved h h' b o :
  block_done h b o → heap_rel evolved h h' → block_done h' b o.
Proof.
  intros Hdone Hrel. destruct b; simpl in *;
    try (destruct Hdone as (r & -> & Htyped); exists r;
         eauto using typed_text_evolved).
  destruct Hdone as [-> Hset]. eauto using settled_evolved.
Qed.

Lemma dict_block_inv b w w' r :
  dict_block b w = (w', r) →
  heap_rel tagged (heap w) (heap w') ∧ ∀ o, r = Ret o → block_done (heap w') b o.
Proof.
  unfold dict_block. destruct b;
    try (intros [= <- <-]; simpl; split;
         [apply heap_rel_alloc, tagged_refl
         |intros o [= <-]; eexists; split; [done | apply new_text_block_typed]]).
  destruct (heap w !! l) as [d|] eqn:Hl.
  - rewrite (bind_ret_run _ _ _ _ _ (ensure_type_run _ _ _ Hl)).
    intros [= <- <-]. simpl. split.
    + eapply heap_rel_update; [apply tagged_refl | done | apply tagged_tag].
    + intros o [= <-]. split; [done|]. apply tag_settled. by eapply lookup_lt_Some.
  - rewrite (bind_raise_run _ _ _ _ _ (ensure_type_fail _ _ Hl)).
    intros [= <- <-]. split; [apply heap_rel_refl, tagged_refl | done].
Qed.

Lemma object_block_inv b w w' r :
  object_block b w = (w', r) →
  heap_rel tagged (heap w) (heap w') ∧ ∀ o, r = Ret o → block_done (heap w') b o.
Proof.
  unfold object_block. destruct (hasattr b "text") eqn:Hattr.
  - unfold hasattr in Hattr. apply bool_decide_eq_true in Hattr as [text Htext].
    unfold getattr. rewrite Htext. destruct b; try done.
    intros [= <- <-]. simpl. split; [apply heap_rel_alloc, tagged_refl|].
    intros o [= <-]. eexists. split; [done | apply new_text_block_typed].
  - intros Hrun. apply dict_block_inv. by destruct b.
Qed.

Lemma dict_block_returns b w :
  text_block_at (heap w) b → ∃ w' o, dict_block b w = (w', Ret o).
Proof.
  intros Hpre. unfold dict_block.
  destruct b; try (eexists _, _; reflexivity).
  destruct Hpre as (d & Hl & _).
  rewrite (bind_ret_run _ _ _ _ _ (ensure_type_run _ _ _ Hl)). eauto.
Qed.

Lemma object_block_returns b w :
  text_block_at (heap w) b → ∃ w' o, object_block b w = (w', Ret o).
Proof.
  intros Hpre. unfold object_block. destruct (hasattr b "text") eqn:Hattr.
  - unfold hasattr in Hattr. apply bool_decide_eq_true in Hattr as [text Htext].
    unfold getattr. rewrite Htext. eexists _, _; reflexivity.
  - destruct (dict_block_returns b w Hpre) as (w' & o & Hrun).
    exists w', o. rewrite <- Hrun. by destruct b.
Qed.

Lemma text_block_at_evolved h h' b :
  text_block_at h b → heap_rel evolved h h' → text_block_at h' b.
Proof. destruct b; simpl; eauto using text_like_evolved. Qed.

Lemma block_done_typed h b o :
  text_block_at h b → block_done h b o → typed_block h o.
Proof.
  destruct b; simpl; try done.
  intros Hlike [-> Hset]. exists l. eauto using text_like_settled.
Qed.

(** *** Rules for the collecting loop *)

Section collect_rules.
Context {A B : Type}.
Variable R : list pydict → list pydict → Prop.
Variable P : list pydict → A → B → Prop.
Variable body : A → M B.
Hypothesis R_refl : ∀ h, R h h.
Hypothesis R_trans : ∀ h1 h2 h3, R h1 h2 → R h2 h3 → R h1 h3.
Hypothesis P_stable : ∀ h h' x y, P h x y → R h h' → P h' x y.
Hypothesis body_inv : ∀ x w w' r,
  body x w = (w', r) → R (heap w) (heap w') ∧ ∀ y, r = Ret y → P (heap w') x y.

Lemma collect_inv xs acc w w' r :
  collect body xs acc w = (w', r) →
  R (heap w) (heap w') ∧
  ∀ out, r = Ret out → ∃ ys, out = acc ++ ys ∧ Forall2 (P (heap w')) xs ys.
Proof using R_refl R_trans P_stable body_inv.
  revert acc w. induction xs as [|x xs IH]; intros acc w; simpl.
  - intros [= <- <-]. split; [done|]. intros out [= <-].
    exists []. by rewrite app_nil_r.
  - intros Hrun.
    apply bind_inv in Hrun as [(w1 & y & Hbody & Hrun)|(e & Hbody & ->)].
    + destruct (body_inv _ _ _ _ Hbody) as [HR HP].
      destruct (IH _ _ Hrun) as [HR' Hout]. split; [eauto|].
      intros out ->. destruct (Hout out eq_refl) as (ys & -> & Hall).
      exists (y :: ys). rewrite <- app_assoc. split; [done|].
      constructor; eauto.
    + destruct (body_inv _ _ _ _ Hbody) as [HR _]. by split.
Qed.

Variable Pre : list pydict → A → Prop.
Hypothesis Pre_stable : ∀ h h' x, Pre h x → R h h' → Pre h' x.
Hypothesis body_returns : ∀ x w, Pre (heap w) x → ∃ w' y, body x w = (w', Ret y).

Lemma collect_returns xs acc w :
  Forall (Pre (heap w)) xs → ∃ w' out, collect body xs acc w = (w', Ret out).
Proof using R_refl R_trans P_stable body_inv Pre_stable body_returns.
  revert acc w. induction xs as [|x xs IH]; intros acc w Hpre; simpl.
  - eexists _, _; reflexivity.
  - apply Forall_cons in Hpre as [Hx Hxs].
    destruct (body_returns x w Hx) as (w1 & y & Hbody).
    destruct (body_inv _ _ _ _ Hbody) as [HR _].
    destruct (IH (acc ++ [y]) w1) as (w' & out & Hrun).
    { eapply Forall_impl; [exact Hxs|]. intros x' Hx'. by eapply Pre_stable. }
    exists w', out. by rewrite (bind_ret_run _ _ _ _ _ Hbody).
Qed.
End collect_rules.

(** *** Computations under which the heap only evolves *)

Lemma safe_ret {A} (a : A) : safe (mret a).
Proof. intros w. apply heap_rel_refl, evolved_refl. Qed.

Lemma safe_raise {A} e : safe (@raise A e).
Proof. intros w. apply heap_rel_refl, evolved_refl. Qed.

Lemma safe_bind {A B} (m : M A) (f : A → M B) :
  safe m → (∀ a, safe (f a)) → safe (m ≫= f).
Proof.
  intros Hm Hf w. rewrite bind_run. specialize (Hm w).
  destruct (m w) as [w1 [a|e]]; simpl in *; [|done].
  eapply evolved_heap_trans; [exact Hm | apply Hf].
Qed.

Lemma safe_inv {A} (m : M A) :
  (∀ w w' r, m w = (w', r) → heap_rel evolved (heap w) (heap w')) → safe m.
Proof. intros Hm w. destruct (m w) as [w' r] eqn:Hrun. eauto. Qed.

Lemma safe_new_dict d : safe (new_dict d).
Proof. intros w. apply heap_rel_alloc, evolved_refl. Qed.

Lemma safe_deref l : safe (deref l).
Proof.
  intros w. unfold deref.
  destruct (heap w !! l); apply heap_rel_refl, evolved_refl.
Qed.

Lemma safe_str v : safe (str v).
Proof. intros w. apply heap_rel_refl, evolved_refl. Qed.

Lemma safe_getattr v name : safe (getattr v name).
Proof. unfold getattr. destruct (attr v name); [apply safe_ret | apply safe_raise]. Qed.

Lemma safe_collect {A B} (body : A → M B) xs acc :
  (∀ x, safe (body x)) → safe (collect body xs acc).
Proof.
  intros Hbody. revert acc. induction xs as [|x xs IH]; intros acc; simpl.
  - apply safe_ret.
  - apply safe_bind; auto.
Qed.

Lemma safe_object_block b : safe (object_block b).
Proof.
  apply safe_inv. intros w w' r Hrun.
  by apply tagged_heap_evolved, (object_block_inv _ _ _ _ Hrun).
Qed.

Create HintDb safe.
#[local] Hint Resolve safe_ret safe_raise safe_new_dict safe_deref safe_str
  safe_getattr safe_object_block : safe.

Ltac safe_step :=
  match goal with
  | |- safe (_ ≫= _) => apply safe_bind; [|intros]
  | |- safe (collect _ _ _) => apply safe_collect; intros
  | |- safe (if ?b then _ else _) => destruct b
  | |- safe (match ?x with _ => _ end) => destruct x
  | |- safe _ => solve [eauto with safe]
  end.

Lemma safe_dict_get l k : safe (dict_get l k).
Proof. unfold dict_get. repeat safe_step. Qed.

Lemma safe_dict_getitem l k : safe (dict_getitem l k).
Proof. unfold dict_getitem. repeat safe_step. Qed.

#[local] Hint Resolve safe_dict_get safe_dict_getitem : safe.

Lemma safe_object_message (msg content : pyval) :
  safe (match content with
        | VList blocks =>
            content_blocks ← collect object_block blocks [];
            single_text ← is_single_text content_blocks;
            if (single_text : bool) then
              role ← getattr msg "role";
              text ← first_text content_blocks;
              new_dict {[ "role" := role; "content" := text ]}
            else
              role ← getattr msg "role";
              new_dict {[ "role" := role; "content" := VList content_blocks ]}
        | _ =>
            role ← getattr msg "role";
            text ← str content;
            new_dict {[ "role" := role; "content" := VStr text ]}
        end).
Proof.
  unfold is_single_text, first_text, py_get, py_getitem. repeat safe_step.
Qed.

(** *** One message of the streaming path *)

Lemma block_done_settled h b o :
  block_done h b o → ∃ r, o = VDict r ∧ settled h r.
Proof.
  destruct b; simpl;
    try (intros (r & -> & Htyped); exists r; eauto using typed_text_settled).
  intros [-> Hset]. eauto.
Qed.

Lemma block_done_normalised h bs nb :
  Forall2 (block_done h) bs nb → normalised bs nb.
Proof.
  intros Hall. unfold normalised. split_and!.
  - symmetry. by eapply Forall2_length.
  - eapply Forall2_Forall_r; [exact Hall|]. apply Forall_true.
    intros o b Hdone. by destruct (block_done_settled _ _ _ Hdone) as (r & -> & _).
  - intros i l Hi. destruct (Forall2_lookup_l _ _ _ _ _ Hall Hi) as (o & Ho & Hdone).
    destruct Hdone as [-> _]. done.
Qed.

Lemma message_done_evolved h h' m o :
  message_done h m o → heap_rel evolved h h' → message_done h' m o.
Proof.
  destruct m; simpl; try done.
  intros (-> & [d Hl] & Hdone) Hrel.
  destruct (Hrel l d Hl) as (d' & Hl' & _ & _ & Hgrows).
  split_and!; [done | eauto |].
  intros d0 bs' Hl0 Hcontent'. assert (d0 = d') as -> by congruence.
  assert (Hbs : ∃ bs, d !! "content" = Some (VList bs) ∧
                      (bs' = bs ∨ normalised bs bs')).
  { destruct Hgrows as [Heq|(bs & bs0 & Hc & Hc0 & Hnorm)].
    - exists bs'. split; [congruence | by left].
    - exists bs. split; [done|]. right. congruence. }
  destruct Hbs as (bs & Hcontent & Hsame).
  specialize (Hdone d bs Hl Hcontent).
  assert (bs' = bs) as ->.
  { destruct Hsame as [->|Hnorm]; [done|]. eapply normalised_dicts; [|done].
    eapply Forall_impl; [exact Hdone|]. by intros b (r & -> & _). }
  eapply Forall_impl; [exact Hdone|].
  intros b (r & -> & Hset). exists r. eauto using settled_evolved.
Qed.

Lemma content_update_evolved h l d bs nb :
  h !! l = Some d →
  d !! "content" = Some (VList bs) →
  normalised bs nb →
  heap_rel evolved h (<[l := <["content" := VList nb]> d]> h).
Proof.
  intros Hl Hcontent Hnorm.
  eapply heap_rel_update; [apply evolved_refl | done |].
  unfold evolved. split_and!.
  - intros k _ Hk. by rewrite lookup_insert_ne.
  - split.
    + intros v Hv. by rewrite lookup_insert_ne.
    + intros Hnone. left. by rewrite lookup_insert_ne.
  - right. exists bs, nb. by rewrite lookup_insert_eq.
Qed.

Lemma dict_message_inv l w w' r :
  format_step_with_system (VDict l) w = (w', r) →
  heap_rel evolved (heap w) (heap w') ∧
  ∀ o, r = Ret o → message_done (heap w') (VDict l) o.
Proof.
  unfold format_step_with_system. simpl.
  destruct (heap w !! l) as [d|] eqn:Hl.
  2:{ unfold dict_contains.
      rewrite (bind_raise_run _ _ _ _ _ (bind_raise_run _ _ _ _ _ (deref_fail _ _ Hl))).
      intros [= <- <-]. split; [apply heap_rel_refl, evolved_refl | done]. }
  rewrite (bind_ret_run _ _ _ _ _ (dict_contains_run _ "content" _ _ Hl)).
  assert (Hkeep : (∀ bs, d !! "content" ≠ Some (VList bs)) →
            message_done (heap w) (VDict l) (VDict l)).
  { intros Hshape. simpl. split_and!; [done | eauto |].
    intros d0 bs Hl0 Hbs. assert (d0 = d) as -> by congruence.
    by destruct (Hshape bs). }
  destruct (d !! "content") as [c|] eqn:Hcontent.
  2:{ rewrite bool_decide_eq_false_2 by (intros [? ?]; done). simpl.
      intros [= <- <-]. split; [apply heap_rel_refl, evolved_refl|].
      intros o [= <-]. by apply Hkeep. }
  rewrite bool_decide_eq_true_2 by eauto.
  rewrite (bind_ret_run _ _ _ _ _ (dict_getitem_run _ _ _ _ _ Hl Hcontent)).
  destruct c as [ | ? | ? | ? | ? | blocks | ? | ? ];
    try (rewrite bind_run; simpl; intros [= <- <-];
         split; [apply heap_rel_refl, evolved_refl|];
         intros o [= <-]; by apply Hkeep).
  clear Hkeep. rewrite bind_run, bind_run.
  destruct (collect dict_block blocks [] w) as [w1 [nb|e]] eqn:Hloop.
  2:{ intros [= <- <-].
      eapply (collect_inv (heap_rel tagged) block_done) in Hloop as [Htagged _];
        eauto using tagged_heap_trans, block_done_evolved, tagged_heap_evolved,
          dict_block_inv.
      - split; [by apply tagged_heap_evolved | done].
      - intros h. apply heap_rel_refl, tagged_refl. }
  eapply (collect_inv (heap_rel tagged) block_done) in Hloop as [Htagged Hout];
    eauto using tagged_heap_trans, block_done_evolved, tagged_heap_evolved,
      dict_block_inv.
  2:{ intros h. apply heap_rel_refl, tagged_refl. }
  destruct (Hout nb eq_refl) as (ys & -> & Hall). simpl in Hall.
  destruct (Htagged l d Hl) as (d1 & Hl1 & Hk1 & _).
  simpl. rewrite (dict_setitem_run _ "content" (VList ys) _ _ Hl1).
  intros [= <- <-]. simpl.
  assert (Hstep : heap_rel evolved (heap w1)
                    (<[l := <["content" := VList ys]> d1]> (heap w1))).
  { eapply content_update_evolved; [done| |by eapply block_done_normalised].
    by rewrite Hk1. }
  split.
  - eapply evolved_heap_trans; [by apply tagged_heap_evolved | done].
  - intros o [= <-]. simpl.
    assert (Hlt : l < length (heap w1)) by by eapply lookup_lt_Some.
    split_and!; [done | by rewrite list_lookup_insert_eq |].
    intros d0 bs. rewrite list_lookup_insert_eq by done. intros [= <-].
    rewrite lookup_insert_eq. intros [= <-].
    eapply Forall2_Forall_r; [exact Hall|]. apply Forall_true.
    intros o b Hdone. destruct (block_done_settled _ _ _ Hdone) as (r0 & -> & Hset).
    exists r0. eauto using settled_evolved.
Qed.

Lemma format_step_with_system_inv m w w' r :
  format_step_with_system m w = (w', r) →
  heap_rel evolved (heap w) (heap w') ∧
  ∀ o, r = Ret o → message_done (heap w') m o.
Proof.
  destruct (decide (isinstance_dict m = true)) as [Hdict|Hdict].
  { destruct m; try done. apply dict_message_inv. }
  intros Hrun. split; [|by destruct m].
  assert (Hsafe : safe (format_step_with_system m)).
  { unfold format_step_with_system.
    destruct (hasattr m "role" && hasattr m "content").
    - apply safe_bind; [apply safe_getattr|]. intros content.
      apply safe_object_message.
    - destruct m; try done; repeat safe_step. }
  specialize (Hsafe w). by rewrite Hrun in Hsafe.
Qed.

(** *** The whole streaming request *)

Lemma format_messages_with_system_inv messages system_prompt w w' r :
  _format_messages_with_system messages system_prompt w = (w', r) →
  heap_rel evolved (heap w) (heap w') ∧
  ∀ out, r = Ret out →
    ∃ ys, out = (if truthy system_prompt then [VDict (length (heap w))] else []) ++ ys
          ∧ Forall2 (message_done (heap w')) messages ys.
Proof.
  unfold _format_messages_with_system. rewrite bind_run.
  set (loop := collect format_step_with_system messages).
  assert (Hloop : ∀ acc w0, loop acc w0 = (w', r) →
            heap_rel evolved (heap w0) (heap w') ∧
            ∀ out, r = Ret out →
              ∃ ys, out = acc ++ ys ∧ Forall2 (message_done (heap w')) messages ys).
  { intros acc w0.
    apply (collect_inv (heap_rel evolved) message_done);
      eauto using evolved_heap_trans, message_done_evolved,
        format_step_with_system_inv.
    intros h. apply heap_rel_refl, evolved_refl. }
  destruct (truthy system_prompt); simpl.
  - intros Hrun. destruct (Hloop _ _ Hrun) as [Hrel Hout]. simpl in Hrel.
    split; [|done].
    eapply evolved_heap_trans; [|exact Hrel]. apply heap_rel_alloc, evolved_refl.
  - apply Hloop.
Qed.

(** C9.  Building a streaming request changes the caller's dictionaries
    where they are.  For a message given as a dict whose content is a list:
    the request holds that very dict; its content has been replaced by the
    normalised block list (all dicts, the original dicts kept, each with
    nothing left to tag); and a block dict that had a "text" but no "type"
    now has "type" set to "text", so that the caller finds it changed. *)
Theorem streaming_request_mutates_caller messages system_prompt w w' formatted
    l d bs :
  _format_messages_with_system messages system_prompt w = (w', Ret formatted) →
  VDict l ∈ messages →
  heap w !! l = Some d →
  d !! "content" = Some (VList bs) →
  VDict l ∈ formatted ∧
  (∃ d' bs',
     heap w' !! l = Some d' ∧ d' !! "content" = Some (VList bs') ∧
     normalised bs bs' ∧
     Forall (λ b, ∃ r, b = VDict r ∧ settled (heap w') r) bs') ∧
  (∀ b bd,
     VDict b ∈ bs →
     heap w !! b = Some bd →
     bd !! "type" = None →
     is_Some (bd !! "text") →
     typed_text (heap w') b ∧ heap w' !! b ≠ heap w !! b).
Proof.
  intros Hrun Hin Hl Hcontent.
  destruct (format_messages_with_system_inv _ _ _ _ _ Hrun) as [Hrel Hout].
  destruct (Hout formatted eq_refl) as (ys & -> & Hall).
  apply list_elem_of_lookup in Hin as [i Hi].
  destruct (Forall2_lookup_l _ _ _ _ _ Hall Hi) as (o & Ho & Hdone).
  simpl in Hdone. destruct Hdone as (-> & _ & Hdone).
  destruct (Hrel l d Hl) as (d' & Hl' & _ & _ & Hgrows).
  assert (Hbs : ∃ bs', d' !! "content" = Some (VList bs') ∧
                       (bs' = bs ∨ normalised bs bs')).
  { destruct Hgrows as [Heq|(bs0 & bs' & Hc & Hc' & Hnorm)].
    - exists bs. split; [congruence | by left].
    - exists bs'. split; [done|]. right. congruence. }
  destruct Hbs as (bs' & Hcontent' & Hsame).
  specialize (Hdone d' bs' Hl' Hcontent').
  assert (Hnorm : normalised bs bs').
  { destruct Hsame as [->|Hnorm]; [|done]. apply normalised_refl.
    eapply Forall_impl; [exact Hdone|]. by intros b (r & -> & _). }
  split_and!.
  - apply elem_of_app. right. by eapply list_elem_of_lookup_2.
  - by exists d', bs'.
  - intros b bd Hb Hlb Htype Htext.
    assert (Htyped : typed_text (heap w') b).
    { apply text_like_settled.
      - eapply text_like_evolved; [|exact Hrel]. exists bd. auto.
      - apply list_elem_of_lookup in Hb as [j Hj].
        destruct Hnorm as (_ & _ & Hkeep). specialize (Hkeep j b Hj).
        rewrite Forall_lookup in Hdone.
        destruct (Hdone j _ Hkeep) as (r & [= <-] & Hset). done. }
    split; [done|].
    destruct Htyped as (bd' & Hlb' & Htype'). rewrite Hlb, Hlb'.
    intros [= ->]. congruence.
Qed.

(** C6.  With a non-empty system prompt, the streaming request is the
    request without a prompt, built after a new system message has been
    allocated, with that message put in front: the list begins with a dict
    of role "system" whose content is the prompt, the formatted input
    messages follow, one for each, and this is the list [stream] sends.
    For the message
    [{role: user, content: 2+2?}] and the prompt [Be terse] the request is
    exactly the system message followed by the caller's message. *)
Theorem system_prompt_prepended messages prompt w :
  prompt ≠ "" →
  _format_messages_with_system messages (Some prompt) w
    = prepend [VDict (length (heap w))]
        (_format_messages_with_system messages None
           (World (heap w ++ [system_message prompt]) (trace w))) ∧
  (∀ w' formatted,
     _format_messages_with_system messages (Some prompt) w = (w', Ret formatted) →
     ∃ rest,
       formatted = VDict (length (heap w)) :: rest ∧
       length rest = length messages ∧
       field (heap w') (VDict (length (heap w))) "role" = Some (VStr "system") ∧
       field (heap w') (VDict (length (heap w))) "content" = Some (VStr prompt) ∧
       ∀ self tool_specs kwargs,
         kwargs !! "model" = None →
         kwargs !! "messages" = None →
         req_messages (stream_request self formatted kwargs) = formatted ∧
         ∃ t, trace (stream self messages tool_specs (Some prompt) kwargs w).1 =
                trace w ++
                [Yield (messageStart "assistant"); Yield (contentBlockStart None 0);
                 HttpRequest (stream_request self formatted kwargs)] ++ t) ∧
  _format_messages_with_system [VDict 0] (Some "Be terse")
      (World [ {[ "role" := VStr "user"; "content" := VStr "2+2?" ]} ] [])
    = (World [ {[ "role" := VStr "user"; "content" := VStr "2+2?" ]};
               {[ "role" := VStr "system"; "content" := VStr "Be terse" ]} ] [],
       Ret [VDict 1; VDict 0]).
Proof.
  intros Hprompt.
  assert (Heq : _format_messages_with_system messages (Some prompt) w
    = prepend [VDict (length (heap w))]
        (_format_messages_with_system messages None
           (World (heap w ++ [system_message prompt]) (trace w)))).
  { unfold _format_messages_with_system. rewrite !bind_run. simpl.
    rewrite bool_decide_eq_false_2 by done. simpl.
    apply collect_acc. }
  split_and!; [done| |reflexivity].
  intros w' formatted Hrun. pose proof Hrun as Hsent. rewrite Heq in Hrun.
  destruct (_format_messages_with_system messages None _) as [w1 [rest|e]] eqn:Hrest;
    [|done].
  simpl in Hrun. injection Hrun as <- <-.
  destruct (format_messages_with_system_inv _ _ _ _ _ Hrest) as [Hrel Hout].
  destruct (Hout rest eq_refl) as (ys & -> & Hall). simpl in Hrel, Hall.
  exists ys.
  split_and!; [done | symmetry; by eapply Forall2_length | | |
               intros self tool_specs kwargs Hmodel Hmessages; split;
               [done | by eapply stream_sends]].
  all: destruct (Hrel (length (heap w)) (system_message prompt))
         as (d' & Hl' & Hk & _ & Hgrows);
       [by rewrite lookup_app_r, Nat.sub_diag|].
  all: simpl; rewrite Hl'; simpl.
  - rewrite Hk by done. unfold system_message. by simplify_map_eq.
  - assert (Hsys : system_message prompt !! "content" = Some (VStr prompt)).
    { unfold system_message. by simplify_map_eq. }
    destruct Hgrows as [Hsame|(bs & bs' & Hbs & _)]; congruence.
Qed.

(** *** Content blocks of one message *)

Lemma eq_str_true v s : eq_str v s = true → v = VStr s.
Proof.
  destruct v; simpl; try done. intros Heq. apply bool_decide_eq_true in Heq. by subst.
Qed.

Lemma object_block_text b w text :
  block_text (heap w) b = Some text →
  ∃ h2 n d2,
    object_block b w = (World h2 (trace w), Ret (VDict n)) ∧
    h2 !! n = Some d2 ∧
    d2 !! "type" = Some (VStr "text") ∧ d2 !! "text" = Some text.
Proof.
  intros Htext.
  assert (Hnew : ∀ t, ∃ h2 n d2,
            (World (heap w ++ [text_block t]) (trace w), Ret (VDict (length (heap w))))
              = (World h2 (trace w), Ret (VDict n)) ∧
            h2 !! n = Some d2 ∧
            d2 !! "type" = Some (VStr "text") ∧ d2 !! "text" = Some t).
  { intros t. exists (heap w ++ [text_block t]), (length (heap w)), (text_block t).
    split_and!; [done | by rewrite lookup_app_r, Nat.sub_diag |..];
      unfold text_block; by simplify_map_eq. }
  destruct (decide (isinstance_dict b = true)) as [Hdict|Hdict].
  - destruct b as [ | ? | ? | ? | ? | ? | l | ? ]; try done. simpl in Htext.
    destruct (heap w !! l) as [d|] eqn:Hl; [|done]. simpl in Htext.
    unfold object_block. simpl.
    rewrite (bind_ret_run _ _ _ _ _ (ensure_type_run _ _ _ Hl)).
    exists (<[l := tag d]> (heap w)), l, (tag d).
    split_and!; [done | apply list_lookup_insert_eq; by eapply lookup_lt_Some |..].
    + unfold tag. destruct (d !! "type") as [ty|] eqn:Hty.
      * destruct (eq_str ty "text") eqn:Heq; [|done].
        apply eq_str_true in Heq. by subst.
      * rewrite Htext. by rewrite lookup_insert_eq.
    + destruct (tagged_tag d) as [Hk _]. rewrite Hk by done.
      destruct (d !! "type") as [ty|]; [|done].
      by destruct (eq_str ty "text").
  - unfold object_block, hasattr, getattr.
    destruct (attr b "text") as [t|] eqn:Hattr.
    + rewrite bool_decide_eq_true_2 by eauto.
      destruct b; try done; simpl in Htext, Hattr; rewrite Hattr in Htext;
        injection Htext as <-; apply Hnew.
    + rewrite bool_decide_eq_false_2 by (intros [? ?]; done).
      destruct b; try done; simpl in Htext, Hattr; rewrite ?Hattr in Htext;
        injection Htext as <-; apply Hnew.
Qed.

Lemma is_single_text_run n w d :
  heap w !! n = Some d → d !! "type" = Some (VStr "text") →
  is_single_text [VDict n] w = (w, Ret true).
Proof.
  intros Hn Hty. unfold is_single_text, py_get.
  by rewrite (bind_ret_run _ _ _ _ _ (dict_get_run _ "type" _ _ Hn)), Hty.
Qed.

Lemma is_single_text_other bs w :
  length bs ≠ 1 → is_single_text bs w = (w, Ret false).
Proof. by destruct bs as [|b [|b' bs]]. Qed.

Lemma hasattr_Some v name x : attr v name = Some x → hasattr v name = true.
Proof. intros Hx. unfold hasattr. apply bool_decide_eq_true_2. eauto. Qed.

Lemma getattr_run v name x w : attr v name = Some x → getattr v name w = (w, Ret x).
Proof. intros Hx. unfold getattr. by rewrite Hx. Qed.

Lemma single_text_block_collapsed m w role b text :
  attr m "role" = Some role →
  attr m "content" = Some (VList [b]) →
  block_text (heap w) b = Some text →
  ∃ h',
    format_step_with_system m w =
      (World (h' ++ [ {[ "role" := role; "content" := text ]} ]) (trace w),
       Ret (VDict (length h'))).
Proof.
  intros Hrole Hcontent Htext.
  destruct (object_block_text _ _ _ Htext) as (h2 & n & d2 & Hblock & Hn & Hty & Htx).
  exists h2. unfold format_step_with_system.
  rewrite (hasattr_Some _ _ _ Hrole), (hasattr_Some _ _ _ Hcontent). simpl.
  rewrite (bind_ret_run _ _ _ _ _ (getattr_run _ _ _ _ Hcontent)).
  rewrite bind_run. simpl. rewrite bind_run, Hblock. simpl.
  rewrite (bind_ret_run _ _ _ _ _
             (is_single_text_run n (World h2 (trace w)) d2 Hn Hty)).
  rewrite (bind_ret_run _ _ _ _ _ (getattr_run _ _ _ _ Hrole)).
  unfold first_text, py_getitem.
  by rewrite (bind_ret_run _ _ _ _ _
             (dict_getitem_run n "text" (World h2 (trace w)) d2 text Hn Htx)).
Qed.

Lemma block_loop_typed (body : pyval → M pyval) bs w :
  (∀ b w w' r, body b w = (w', r) →
     heap_rel tagged (heap w) (heap w') ∧ ∀ o, r = Ret o → block_done (heap w') b o) →
  (∀ b w, text_block_at (heap w) b → ∃ w' o, body b w = (w', Ret o)) →
  Forall (text_block_at (heap w)) bs →
  ∃ w2 nb,
    collect body bs [] w = (w2, Ret nb) ∧
    heap_rel tagged (heap w) (heap w2) ∧
    normalised bs nb ∧
    Forall (typed_block (heap w2)) nb.
Proof.
  intros Hinv Hreturns Hpre.
  assert (Hrefl : ∀ h, heap_rel tagged h h).
  { intros h. apply heap_rel_refl, tagged_refl. }
  assert (Hstable : ∀ h h' b, text_block_at h b → heap_rel tagged h h' →
                              text_block_at h' b).
  { eauto using text_block_at_evolved, tagged_heap_evolved. }
  assert (Hdone : ∀ h h' b o, block_done h b o → heap_rel tagged h h' →
                              block_done h' b o).
  { eauto using block_done_evolved, tagged_heap_evolved. }
  destruct (collect_returns (heap_rel tagged) block_done body Hrefl
              tagged_heap_trans Hdone Hinv text_block_at Hstable Hreturns bs [] w Hpre)
    as (w2 & nb & Hrun).
  exists w2, nb. split; [done|].
  destruct (collect_inv (heap_rel tagged) block_done body Hrefl
              tagged_heap_trans Hdone Hinv bs [] w w2 (Ret nb) Hrun)
    as [Htagged Hout].
  destruct (Hout nb eq_refl) as (ys & [= ->] & Hall).
  split_and!; [done | by eapply block_done_normalised |].
  assert (Hpre2 : Forall (text_block_at (heap w2)) bs).
  { eapply Forall_impl; [exact Hpre|]. eauto. }
  clear -Hall Hpre2. induction Hall as [|b o bs ys Hbo Hall IH]; [constructor|].
  apply Forall_cons in Hpre2 as [Hb Hbs].
  constructor; [by eapply block_done_typed | auto].
Qed.

Lemma typed_block_evolved h h' o :
  typed_block h o → heap_rel evolved h h' → typed_block h' o.
Proof. intros (r & -> & Htyped) Hrel. exists r. eauto using typed_text_evolved. Qed.

Lemma text_blocks_kept m w bs :
  field (heap w) m "content" = Some (VList bs) →
  Forall (text_block_at (heap w)) bs →
  isinstance_dict m = true ∨ (hasattr m "role" = true ∧ length bs ≠ 1) →
  ∃ w' o nb,
    format_step_with_system m w = (w', Ret o) ∧
    field (heap w') o "content" = Some (VList nb) ∧
    length nb = length bs ∧
    Forall (typed_block (heap w')) nb.
Proof.
  intros Hcontent Hpre Hshape.
  destruct (decide (isinstance_dict m = true)) as [Hdict|Hdict].
  - destruct m as [ | ? | ? | ? | ? | ? | l | ? ]; try done. simpl in Hcontent.
    destruct (heap w !! l) as [d|] eqn:Hl; [|done]. simpl in Hcontent.
    destruct (block_loop_typed dict_block bs w dict_block_inv dict_block_returns Hpre)
      as (w2 & nb & Hloop & Htagged & Hnorm & Htyped).
    destruct (Htagged l d Hl) as (d2 & Hl2 & Hk2 & _).
    assert (Hlt : l < length (heap w2)) by by eapply lookup_lt_Some.
    exists (World (<[l := <["content" := VList nb]> d2]> (heap w2)) (trace w2)),
      (VDict l), nb.
    split_and!.
    + unfold format_step_with_system. simpl.
      rewrite (bind_ret_run _ _ _ _ _ (dict_contains_run _ "content" _ _ Hl)).
      rewrite bool_decide_eq_true_2 by eauto.
      rewrite (bind_ret_run _ _ _ _ _ (dict_getitem_run _ _ _ _ _ Hl Hcontent)).
      rewrite bind_run, bind_run, Hloop.
      by rewrite (dict_setitem_run _ "content" (VList nb) _ _ Hl2).
    + simpl. rewrite list_lookup_insert_eq by done. simpl.
      by rewrite lookup_insert_eq.
    + by destruct Hnorm.
    + simpl. eapply Forall_impl; [exact Htyped|]. intros o Ho.
      eapply typed_block_evolved; [exact Ho|].
      eapply content_update_evolved; [done | by rewrite Hk2 | done].
  - destruct Hshape as [?|[Hrole Hlen]]; [done|].
    assert (Hattr : attr m "content" = Some (VList bs)) by by destruct m.
    unfold hasattr in Hrole. apply bool_decide_eq_true in Hrole as [role Hrole].
    destruct (block_loop_typed object_block bs w object_block_inv
                object_block_returns Hpre)
      as (w2 & nb & Hloop & Htagged & Hnorm & Htyped).
    assert (Hlen2 : length nb ≠ 1) by (destruct Hnorm as [-> _]; done).
    exists (World (heap w2 ++ [ {[ "role" := role; "content" := VList nb ]} ])
                  (trace w2)),
      (VDict (length (heap w2))), nb.
    split_and!.
    + unfold format_step_with_system.
      rewrite (hasattr_Some _ _ _ Hrole), (hasattr_Some _ _ _ Hattr). simpl.
      rewrite (bind_ret_run _ _ _ _ _ (getattr_run _ _ _ _ Hattr)).
      rewrite bind_run, Hloop.
      rewrite (bind_ret_run _ _ _ _ _ (is_single_text_other _ _ Hlen2)).
      by rewrite (bind_ret_run _ _ _ _ _ (getattr_run _ _ _ _ Hrole)).
    + simpl. rewrite lookup_app_r, Nat.sub_diag by done. simpl.
      by simplify_map_eq.
    + by destruct Hnorm.
    + simpl. eapply Forall_impl; [exact Htyped|]. intros o Ho.
      eapply typed_block_evolved; [exact Ho|]. apply heap_rel_alloc, evolved_refl.
Qed.

(** C3 (amended).  After any messages that were formatted: a message that
    exposes [role] and [content] as attributes and whose content is a list
    of exactly one block normalising to a text block becomes a new dict
    with that block's text as scalar content; a message whose content is a
    list of text blocks and that is a dict, or that exposes [role] and does
    not hold exactly one block, keeps a block list of the same length in
    which every element is a dict tagged type "text" (two text blocks give
    a two-element list). *)
Theorem content_block_collapse messages system_prompt w w1 formatted m :
  _format_messages_with_system messages system_prompt w = (w1, Ret formatted) →
  (∀ role b text,
     attr m "role" = Some role →
     attr m "content" = Some (VList [b]) →
     block_text (heap w1) b = Some text →
     ∃ w' o,
       _format_messages_with_system (messages ++ [m]) system_prompt w
         = (w', Ret (formatted ++ [o])) ∧
       isinstance_dict o = true ∧
       field (heap w') o "role" = Some role ∧
       field (heap w') o "content" = Some text) ∧
  (∀ bs,
     field (heap w1) m "content" = Some (VList bs) →
     Forall (text_block_at (heap w1)) bs →
     isinstance_dict m = true ∨ (hasattr m "role" = true ∧ length bs ≠ 1) →
     ∃ w' o nb,
       _format_messages_with_system (messages ++ [m]) system_prompt w
         = (w', Ret (formatted ++ [o])) ∧
       field (heap w') o "content" = Some (VList nb) ∧
       length nb = length bs ∧
       Forall (typed_block (heap w')) nb).
Proof.
  intros Hrun. rewrite (format_messages_with_system_snoc _ m _ _ _ _ Hrun). split.
  - intros role b text Hrole Hcontent Htext.
    destruct (single_text_block_collapsed _ _ _ _ _ Hrole Hcontent Htext)
      as (h' & Hstep).
    rewrite (bind_ret_run _ _ _ _ _ Hstep).
    eexists _, _. split; [reflexivity|]. simpl.
    rewrite lookup_app_r, Nat.sub_diag by done. simpl.
    split_and!; [done|..]; by simplify_map_eq.
  - intros bs Hcontent Hpre Hshape.
    destruct (text_blocks_kept _ _ _ Hcontent Hpre Hshape)
      as (w' & o & nb & Hstep & Hfield & Hlen & Htyped).
    rewrite (bind_ret_run _ _ _ _ _ Hstep). by exists w', o, nb.
Qed.

(** ** Further properties of the adapter *)

(** *** The non-streaming path *)

Lemma format_step_frame m w :
  ∃ hx o,
    format_step m w = (World (heap w ++ hx) (trace w), Ret o) ∧
    (length hx ≤ 1)%nat ∧ passed_on (heap w) m o.
Proof.
  unfold format_step.
  destruct (isinstance_dict m) eqn:Hdict.
  { destruct m; try done. exists [], (VDict l). simpl.
    rewrite app_nil_r, world_eta. split_and!; [done | lia | done]. }
  assert (Hnew : ∀ d, ∃ hx o,
            new_dict d w = (World (heap w ++ hx) (trace w), Ret o) ∧
            (length hx ≤ 1)%nat ∧ passed_on (heap w) m o).
  { intros d. exists [d], (VDict (length (heap w))). split_and!; [done | simpl; lia |].
    destruct m; try done; by exists (length (heap w)). }
  destruct (hasattr m "role" && hasattr m "content") eqn:Hattrs.
  - apply andb_true_iff in Hattrs as [Hrole Hcontent].
    unfold hasattr in Hrole, Hcontent.
    apply bool_decide_eq_true in Hrole as [role Hrole].
    apply bool_decide_eq_true in Hcontent as [content Hcontent].
    rewrite (bind_ret_run _ _ _ _ _ (getattr_run _ _ _ _ Hrole)).
    rewrite (bind_ret_run _ _ _ _ _ (getattr_run _ _ _ _ Hcontent)).
    apply Hnew.
  - rewrite bind_run. simpl. apply Hnew.
Qed.

Lemma format_messages_frame messages acc h hpre t :
  ∃ hx out,
    collect format_step messages acc (World (h ++ hpre) t)
      = (World (h ++ hpre ++ hx) t, Ret (acc ++ out)) ∧
    (length hx ≤ length messages)%nat ∧
    Forall2 (passed_on h) messages out.
Proof.
  revert acc hpre.
  induction messages as [|m messages IH]; intros acc hpre.
  - exists [], []. simpl. rewrite !app_nil_r. split_and!; [done | lia | constructor].
  - destruct (format_step_frame m (World (h ++ hpre) t))
      as (hx & o & Hstep & Hlen & Hpassed).
    simpl in Hstep, Hpassed. rewrite <- app_assoc in Hstep.
    destruct (IH (acc ++ [o]) (hpre ++ hx)) as (hx' & out & Hloop & Hlen' & Hall).
    rewrite <- !app_assoc in Hloop.
    exists (hx ++ hx'), (o :: out). split_and!.
    + simpl. rewrite (bind_ret_run _ _ _ _ _ Hstep), Hloop.
      by rewrite <- ?(app_assoc acc).
    + rewrite length_app. simpl. lia.
    + constructor; [|done]. destruct m; simpl in *;
        try (destruct Hpassed as (r & -> & Hr); exists r; split; [done|];
             rewrite length_app in Hr; lia).
      done.
Qed.

Lemma format_messages_returns messages w :
  ∃ hx formatted,
    _format_messages messages w
      = (World (heap w ++ hx) (trace w), Ret formatted) ∧
    length formatted = length messages.
Proof.
  destruct (format_messages_frame messages [] (heap w) [] (trace w))
    as (hx & out & Hrun & _ & Hall).
  rewrite app_nil_r, world_eta in Hrun.
  exists hx, out. split; [done|]. symmetry. by eapply Forall2_length.
Qed.

(** X1.  [_format_messages] never raises and never touches a dict that is
    there: it returns one entry for each message, having only allocated new
    dicts, at most one for each message; a message that is a dict is passed
    on as the same object, any other one as a newly allocated dict. *)
Theorem format_messages_total messages w :
  ∃ hx formatted,
    _format_messages messages w
      = (World (heap w ++ hx) (trace w), Ret formatted) ∧
    length formatted = length messages ∧
    (length hx ≤ length messages)%nat ∧
    Forall2 (passed_on (heap w)) messages formatted.
Proof.
  destruct (format_messages_frame messages [] (heap w) [] (trace w))
    as (hx & out & Hrun & Hlen & Hall).
  rewrite app_nil_r, world_eta in Hrun. simpl in Hrun.
  exists hx, out. split_and!; [done| |done..].
  symmetry. by eapply Forall2_length.
Qed.

Lemma without_lookup keys (kwargs : pydict) k :
  k ∉ keys → without keys kwargs !! k = kwargs !! k.
Proof.
  intros Hk. unfold without. destruct (kwargs !! k) as [v|] eqn:Hv.
  - by apply map_lookup_filter_Some.
  - apply map_lookup_filter_None. by left.
Qed.

Lemma check_keywords_repeated (kwargs : pydict) keys w :
  "model" ∉ keys → "messages" ∉ keys →
  is_Some (kwargs !! "model") ∨ is_Some (kwargs !! "messages") →
  check_keywords (without keys kwargs) w
    = (w, Raise (TypeError "got multiple values for keyword argument")).
Proof.
  intros Hmodel Hmessages Hrepeated.
  unfold check_keywords, explicit_keywords. simpl.
  rewrite !without_lookup by done.
  destruct Hrepeated as [[v Hv]|[v Hv]]; rewrite Hv.
  - by rewrite bool_decide_eq_false_2.
  - rewrite (bool_decide_eq_false_2 (Some v = None)) by done.
    by rewrite andb_false_r.
Qed.

(** X2.  The failures of [generate].  A keyword of the caller that repeats
    [model] or [messages] raises [TypeError] before anything is sent.
    Otherwise exactly one request goes out; an error of the backend is
    raised as it is, and an answer without choices raises [IndexError].  In
    all three cases the caller's dicts are as they were. *)
Theorem generate_failures self messages kwargs w :
  ∃ hx formatted,
    _format_messages messages w
      = (World (heap w ++ hx) (trace w), Ret formatted) ∧
    (is_Some (kwargs !! "model") ∨ is_Some (kwargs !! "messages") →
     generate self messages kwargs w =
       (World (heap w ++ hx) (trace w),
        Raise (TypeError "got multiple values for keyword argument"))) ∧
    (kwargs !! "model" = None → kwargs !! "messages" = None →
     (∀ e,
        create (client self) (generate_request self formatted kwargs) = inl e →
        generate self messages kwargs w =
          (World (heap w ++ hx)
             (trace w ++ [HttpRequest (generate_request self formatted kwargs)]),
           Raise e)) ∧
     (∀ response,
        create (client self) (generate_request self formatted kwargs)
          = inr response →
        choices response = [] →
        generate self messages kwargs w =
          (World (heap w ++ hx)
             (trace w ++ [HttpRequest (generate_request self formatted kwargs)]),
           Raise IndexError))).
Proof.
  destruct (format_messages_returns messages w) as (hx & formatted & Hfmt & _).
  exists hx, formatted. split; [done|]. split.
  - intros Hrepeated. unfold generate.
    rewrite (bind_ret_run _ _ _ _ _ Hfmt). unfold call.
    rewrite bind_run, bind_run. cbn [req_extra generate_request].
    rewrite check_keywords_repeated; [done| | |done];
      by (intros Hin; repeat (apply elem_of_cons in Hin as [?|Hin]; [done|]);
          by apply elem_of_nil in Hin).
  - intros Hmodel Hmessages. split.
    + intros e Hbackend. unfold generate.
      rewrite (bind_ret_run _ _ _ _ _ Hfmt), bind_run.
      rewrite call_run by by apply check_keywords_ok.
      by rewrite Hbackend.
    + intros response Hbackend Hchoices. unfold generate.
      rewrite (bind_ret_run _ _ _ _ _ Hfmt), bind_run.
      rewrite call_run by by apply check_keywords_ok.
      by rewrite Hbackend, Hchoices.
Qed.

(** *** The streaming path when something fails *)

Lemma unterminated_deltas chunks : unterminated (deltas_of chunks).
Proof.
  eapply Forall_impl; [apply deltas_of_delta0|]. by intros ev [text ->].
Qed.


(** X4.  Whenever [stream] raises, for whatever reason, no
    content-block-stop and no message-stop has been yielded. *)
Theorem stream_raise_unterminated self messages tool_specs system_prompt kwargs
    w e :
  (stream self messages tool_specs system_prompt kwargs w).2 = Raise e →
  ∃ t,
    trace (stream self messages tool_specs system_prompt kwargs w).1
      = trace w ++ t ∧
    unterminated (yielded t).
Proof.
  intros Hraise.
  destruct (stream self messages tool_specs system_prompt kwargs w)
    as [w' r] eqn:Hrun.
  simpl in *. subst r. revert Hrun.
  pose proof (quiet_format_messages_with_system messages system_prompt w) as Htrace.
  unfold stream. rewrite bind_run.
  destruct (_format_messages_with_system messages system_prompt w)
    as [w1 [formatted|e1]]; simpl in Htrace.
  2:{ intros [= <- _]. exists []. rewrite app_nil_r. split; [done | constructor]. }
  rewrite bind_run. simpl. rewrite bind_run. simpl. rewrite bind_run.
  unfold call at 1. rewrite bind_run. unfold check_keywords.
  assert (Hstart : unterminated
            [messageStart "assistant"; contentBlockStart None 0]).
  { by repeat constructor. }
  destruct (forallb _ explicit_keywords); simpl.
  2:{ intros [= <- _]. eexists. simpl. rewrite Htrace, <- app_assoc.
      split; [reflexivity | exact Hstart]. }
  rewrite bind_run. simpl.
  destruct (create_stream (client self) _) as [e1|[chunks err]]; simpl.
  { intros [= <- _]. eexists. simpl. rewrite Htrace, <- !app_assoc.
    split; [reflexivity | exact Hstart]. }
  rewrite bind_run, chunk_loop_run. simpl.
  destruct err as [e1|]; repeat (rewrite bind_run; simpl); unfold yield, emit; simpl;
    [|done].
  intros [= <- _]. eexists. simpl. rewrite Htrace, <- !app_assoc.
  split; [reflexivity|].
  simpl. rewrite yielded_Yield.
  repeat (apply Forall_cons_2; [done|]). apply unterminated_deltas.
Qed.

(** *** The text a stream delivers *)

Lemma join_deltas chunks :
  join (delta_texts (deltas_of chunks)) = join (first_content <$> chunks) ∧
  Forall (λ text, text ≠ "") (delta_texts (deltas_of chunks)).
Proof.
  induction chunks as [|chunk chunks [IHjoin IHall]]; [by split; [|constructor]|].
  rewrite deltas_of_cons. rewrite fmap_cons. unfold delta_text, first_content.
  destruct (chunk_choices chunk) as [[|choice rest]|]; simpl; try done.
  destruct (delta_content (delta choice)) as [text|]; simpl; [|done].
  case_bool_decide as Htext; simpl.
  - by subst.
  - change (delta_texts (contentBlockDelta text 0 :: deltas_of chunks))
      with (text :: delta_texts (deltas_of chunks)).
    simpl. split; [by rewrite IHjoin | by constructor].
Qed.

Lemma delta_texts_app evs1 evs2 :
  delta_texts (evs1 ++ evs2) = delta_texts evs1 ++ delta_texts evs2.
Proof. apply omap_app. Qed.

(** X5.  No text is lost and none is made up: when the backend stream is
    delivered to its end, the texts of the deltas that [stream] yields,
    put together, are the texts of the first choices of the chunks, put
    together; and no delta carries an empty text. *)
Theorem stream_text_preserved self messages tool_specs system_prompt kwargs
    w w1 formatted chunks :
  _format_messages_with_system messages system_prompt w = (w1, Ret formatted) →
  kwargs !! "model" = None →
  kwargs !! "messages" = None →
  create_stream (client self) (stream_request self formatted kwargs)
    = inr {| stream_chunks := chunks; stream_error := None |} →
  ∃ t,
    trace (stream self messages tool_specs system_prompt kwargs w).1
      = trace w ++ t ∧
    join (delta_texts (yielded t)) = join (first_content <$> chunks) ∧
    Forall (λ text, text ≠ "") (delta_texts (yielded t)).
Proof.
  intros Hfmt Hmodel Hmessages Hbackend.
  rewrite (stream_run_ok _ _ tool_specs _ _ _ _ _ _ Hfmt Hmodel Hmessages Hbackend).
  eexists. split; [reflexivity|].
  simpl. rewrite yielded_app, yielded_Yield. simpl.
  change (delta_texts (messageStart "assistant" :: contentBlockStart None 0 ::
                       deltas_of chunks ++
                       [contentBlockStop 0; messageStop "end_turn" None]))
    with (delta_texts (deltas_of chunks ++
                       [contentBlockStop 0; messageStop "end_turn" None])).
  rewrite delta_texts_app. simpl. rewrite app_nil_r. apply join_deltas.
Qed.

(** *** A text block without its text *)

Lemma tag_typed d ty : d !! "type" = Some ty → tag d = d.
Proof. intros Hty. unfold tag. by rewrite Hty. Qed.

(** X6.  A message that exposes [role] and [content], whose content is
    the list of one dict that says type "text" but holds no "text", makes
    the request building raise [KeyError] for "text", after any messages
    that were formatted and with the dicts as they were; [stream] then
    raises the same before it has yielded or sent anything, and
    [structured_output] before it has sent anything. *)
Theorem text_block_without_text messages system_prompt w w1 formatted m role l d :
  _format_messages_with_system messages system_prompt w = (w1, Ret formatted) →
  attr m "role" = Some role →
  attr m "content" = Some (VList [VDict l]) →
  heap w1 !! l = Some d →
  d !! "type" = Some (VStr "text") →
  d !! "text" = None →
  _format_messages_with_system (messages ++ [m]) system_prompt w
    = (w1, Raise (KeyError "text")) ∧
  (∀ self tool_specs kwargs,
     stream self (messages ++ [m]) tool_specs system_prompt kwargs w
       = (w1, Raise (KeyError "text"))) ∧
  (∀ self schema tool_specs kwargs,
     structured_output self (messages ++ [m]) schema tool_specs system_prompt
       kwargs w = (w1, Raise (KeyError "text"))) ∧
  trace w1 = trace w.
Proof.
  intros Hrun Hrole Hcontent Hl Hty Htext.
  assert (Hstep : format_step_with_system m w1 = (w1, Raise (KeyError "text"))).
  { unfold format_step_with_system.
    rewrite (hasattr_Some _ _ _ Hrole), (hasattr_Some _ _ _ Hcontent). simpl.
    rewrite (bind_ret_run _ _ _ _ _ (getattr_run _ _ _ _ Hcontent)).
    rewrite bind_run. simpl. rewrite bind_run. unfold object_block. simpl.
    rewrite (bind_ret_run _ _ _ _ _ (ensure_type_run _ _ _ Hl)).
    rewrite (tag_typed _ _ Hty), list_insert_id, world_eta by done. simpl.
    rewrite (bind_ret_run _ _ _ _ _ (is_single_text_run l w1 d Hl Hty)).
    rewrite (bind_ret_run _ _ _ _ _ (getattr_run _ _ _ _ Hrole)).
    unfold first_text, py_getitem, dict_getitem.
    rewrite bind_run, (bind_ret_run _ _ _ _ _ (deref_run _ _ _ Hl)).
    by rewrite Htext. }
  assert (Hfmt : _format_messages_with_system (messages ++ [m]) system_prompt w
                 = (w1, Raise (KeyError "text"))).
  { rewrite (format_messages_with_system_snoc _ m _ _ _ _ Hrun).
    by rewrite (bind_raise_run _ _ _ _ _ Hstep). }
  split_and!; [done| | |].
  - intros self tool_specs kwargs. unfold stream.
    by rewrite (bind_raise_run _ _ _ _ _ Hfmt).
  - intros self schema tool_specs kwargs. unfold structured_output.
    by rewrite (bind_raise_run _ _ _ _ _ Hfmt).
  - pose proof (quiet_format_messages_with_system messages system_prompt w) as Hq.
    by rewrite Hrun in Hq.
Qed.

(** *** The size of the streaming request *)

(** X7.  When the request building returns, the request holds one message
    for each input message, and one more in front exactly when the system
    prompt is not empty: an empty prompt counts as none. *)
Theorem streaming_request_length messages system_prompt w w' formatted :
  _format_messages_with_system messages system_prompt w = (w', Ret formatted) →
  length formatted
    = ((if truthy system_prompt then 1 else 0) + length messages)%nat ∧
  (system_prompt = None ∨ system_prompt = Some "" →
   length formatted = length messages ∧
   _format_messages_with_system messages system_prompt w
     = _format_messages_with_system messages None w).
Proof.
  intros Hrun.
  destruct (format_messages_with_system_inv _ _ _ _ _ Hrun) as [_ Hout].
  destruct (Hout formatted eq_refl) as (ys & -> & Hall).
  apply Forall2_length in Hall. split.
  - rewrite length_app, Hall. by destruct (truthy system_prompt).
  - intros [->| ->]; simpl; by rewrite Hall.
Qed.

(** *** [structured_output] and the system prompt *)

(** X8.  What [structured_output] sends is the request of [generate]: one
    message for each input message and no system message, whatever system
    prompt it is given; the prompt only takes part in the request building
    whose result is dropped, and which has changed the caller's dicts
    before the request is formatted. *)
Theorem structured_output_drops_system_prompt self messages schema tool_specs
    system_prompt kwargs w w1 formatted :
  _format_messages_with_system messages system_prompt w = (w1, Ret formatted) →
  kwargs !! "model" = None →
  kwargs !! "messages" = None →
  ∃ hx plain,
    _format_messages messages w1 = (World (heap w1 ++ hx) (trace w), Ret plain) ∧
    length plain = length messages ∧
    heap_rel evolved (heap w) (heap w1) ∧
    ∃ hy,
      (structured_output self messages schema tool_specs system_prompt kwargs w).1
      = World (heap w1 ++ hx ++ hy)
          (trace w ++ [HttpRequest (generate_request self plain kwargs)]).
Proof.
  intros Hfmt Hmodel Hmessages.
  pose proof (quiet_format_messages_with_system messages system_prompt w) as Htrace.
  rewrite Hfmt in Htrace. simpl in Htrace.
  destruct (format_messages_returns messages w1) as (hx & plain & Hplain & Hlen).
  rewrite Htrace in Hplain.
  exists hx, plain. split_and!; [done..| |].
  { by destruct (format_messages_with_system_inv _ _ _ _ _ Hfmt). }
  unfold structured_output. rewrite (bind_ret_run _ _ _ _ _ Hfmt).
  rewrite bind_run. unfold generate.
  rewrite (bind_ret_run _ _ _ _ _ Hplain), bind_run.
  rewrite call_run by by apply check_keywords_ok. simpl.
  destruct (create (client self) _) as [e|response]; simpl.
  { exists []. by rewrite app_nil_r. }
  destruct (choices response) as [|choice rest]; simpl.
  { exists []. by rewrite app_nil_r. }
  destruct (message_content (message choice)); simpl;
    eexists [_]; by rewrite <- app_assoc.
Qed.

(** *** The two request builders on scalar messages *)

Lemma format_steps_agree m w :
  scalar_message (heap w) m → format_step_with_system m w = format_step m w.
Proof.
  intros [[r Hr] [s Hs]]. unfold format_step_with_system, format_step.
  destruct m; simpl in Hr, Hs; try done.
  - destruct (heap w !! l) as [d|] eqn:Hl; [|done]. simpl in Hr, Hs.
    simpl.
    rewrite (bind_ret_run _ _ _ _ _ (dict_contains_run _ "content" _ _ Hl)).
    rewrite bool_decide_eq_true_2 by eauto.
    by rewrite (bind_ret_run _ _ _ _ _ (dict_getitem_run _ _ _ _ _ Hl Hs)).
  - rewrite (hasattr_Some (VObj attrs) "role" r Hr).
    rewrite (hasattr_Some (VObj attrs) "content" (VStr s) Hs). simpl.
    rewrite !(bind_ret_run _ _ _ _ _ (getattr_run (VObj attrs) "content" _ _ Hs)).
    rewrite !(bind_ret_run _ _ _ _ _ (getattr_run (VObj attrs) "role" _ _ Hr)).
    by rewrite (bind_ret_run _ _ _ _ _ (getattr_run (VObj attrs) "content" _ _ Hs)).
Qed.

(** X9.  On messages that all carry a role and scalar string content, the
    request building of the streaming path, without a system prompt, does
    what [_format_messages] does: the same request and the same world. *)
Theorem request_builders_agree messages w :
  Forall (scalar_message (heap w)) messages →
  _format_messages_with_system messages None w = _format_messages messages w.
Proof.
  intros Hscalar. unfold _format_messages_with_system, _format_messages.
  rewrite bind_run. simpl. generalize (@nil pyval) as acc.
  destruct w as [h t]. simpl in Hscalar.
  cut (∀ hpre acc,
         collect format_step_with_system messages acc (World (h ++ hpre) t)
         = collect format_step messages acc (World (h ++ hpre) t)).
  { intros Hloop acc. specialize (Hloop [] acc). by rewrite app_nil_r in Hloop. }
  induction messages as [|m messages IH]; intros hpre acc; [done|].
  apply Forall_cons in Hscalar as [Hm Hrest]. simpl.
  rewrite !bind_run, format_steps_agree by by apply scalar_message_app.
  destruct (format_step_scalar m (World (h ++ hpre) t))
    as (hx & o & Hstep & _); [by apply scalar_message_app|].
  rewrite Hstep. simpl. rewrite <- app_assoc. by apply IH.
Qed.

(** *** Building the streaming request a second time *)

Lemma tag_settled_id d :
  d !! "text" = None ∨ is_Some (d !! "type") → tag d = d.
Proof.
  intros Hset. unfold tag. destruct (d !! "type") as [ty|]; [done|].
  destruct (d !! "text") as [tx|]; [|done].
  destruct Hset as [?|[? ?]]; done.
Qed.

Lemma dict_block_settled r w :
  settled (heap w) r → dict_block (VDict r) w = (w, Ret (VDict r)).
Proof.
  intros (d & Hr & Hset). unfold dict_block.
  rewrite (bind_ret_run _ _ _ _ _ (ensure_type_run _ _ _ Hr)).
  by rewrite (tag_settled_id _ Hset), list_insert_id, world_eta.
Qed.

Lemma dict_blocks_settled bs acc w :
  Forall (λ b, ∃ r, b = VDict r ∧ settled (heap w) r) bs →
  collect dict_block bs acc w = (w, Ret (acc ++ bs)).
Proof.
  revert acc. induction bs as [|b bs IH]; intros acc Hall; simpl.
  - by rewrite app_nil_r.
  - apply Forall_cons in Hall as [(r & -> & Hset) Hall].
    rewrite (bind_ret_run _ _ _ _ _ (dict_block_settled _ _ Hset)).
    rewrite IH by done. by rewrite <- app_assoc.
Qed.

Lemma format_step_with_system_done l w :
  message_done (heap w) (VDict l) (VDict l) →
  format_step_with_system (VDict l) w = (w, Ret (VDict l)).
Proof.
  intros (_ & [d Hl] & Hdone). unfold format_step_with_system. simpl.
  rewrite (bind_ret_run _ _ _ _ _ (dict_contains_run _ "content" _ _ Hl)).
  destruct (d !! "content") as [c|] eqn:Hcontent.
  2:{ by rewrite bool_decide_eq_false_2 by (intros [? ?]; done). }
  rewrite bool_decide_eq_true_2 by eauto.
  rewrite (bind_ret_run _ _ _ _ _ (dict_getitem_run _ _ _ _ _ Hl Hcontent)).
  destruct c as [ | ? | ? | ? | ? | bs | ? | ? ]; try done.
  rewrite bind_run, bind_run.
  rewrite (dict_blocks_settled bs [] w (Hdone d bs Hl Hcontent)). simpl.
  rewrite (dict_setitem_run _ "content" (VList bs) _ _ Hl).
  by rewrite insert_id, list_insert_id, world_eta.
Qed.

Lemma format_messages_done messages acc w :
  Forall (λ m, isinstance_dict m = true ∧ message_done (heap w) m m) messages →
  collect format_step_with_system messages acc w = (w, Ret (acc ++ messages)).
Proof.
  revert acc. induction messages as [|m messages IH]; intros acc Hall; simpl.
  - by rewrite app_nil_r.
  - apply Forall_cons in Hall as [[Hdict Hdone] Hall].
    destruct m; try done.
    rewrite (bind_ret_run _ _ _ _ _ (format_step_with_system_done _ _ Hdone)).
    rewrite IH by done. by rewrite <- app_assoc.
Qed.

(** X10.  For messages that are all dicts, building the streaming request
    is idempotent on the caller's side: once a call has returned, a second
    call without a system prompt changes nothing at all and returns the
    caller's own messages, and a second call with a prompt does no more
    than allocate the system message in front of them. *)
Theorem request_building_idempotent messages system_prompt w w1 formatted :
  Forall (λ m, isinstance_dict m = true) messages →
  _format_messages_with_system messages system_prompt w = (w1, Ret formatted) →
  _format_messages_with_system messages None w1 = (w1, Ret messages) ∧
  ∀ prompt, prompt ≠ "" →
    _format_messages_with_system messages (Some prompt) w1
      = (World (heap w1 ++ [system_message prompt]) (trace w1),
         Ret (VDict (length (heap w1)) :: messages)).
Proof.
  intros Hdicts Hrun.
  destruct (format_messages_with_system_inv _ _ _ _ _ Hrun) as [_ Hout].
  destruct (Hout formatted eq_refl) as (ys & _ & Hall).
  assert (Hdone : Forall (λ m, isinstance_dict m = true ∧
                               message_done (heap w1) m m) messages).
  { clear -Hdicts Hall. induction Hall as [|m o ms ys Hmo Hall IH]; [constructor|].
    apply Forall_cons in Hdicts as [Hm Hms]. constructor; [|auto].
    split; [done|]. destruct m; try done. by destruct Hmo as (-> & ? & ?). }
  split.
  - unfold _format_messages_with_system. rewrite bind_run. simpl.
    by rewrite (format_messages_done messages [] w1).
  - intros prompt Hprompt. unfold _format_messages_with_system.
    rewrite bind_run. simpl. rewrite bool_decide_eq_false_2 by done. simpl.
    rewrite format_messages_done; [done|]. simpl.
    eapply Forall_impl; [exact Hdone|]. intros m [Hm Hmdone]. split; [done|].
    eapply message_done_evolved; [exact Hmdone|].
    apply heap_rel_alloc, evolved_refl.
Qed.

(** *** Dict messages never make the request building raise *)

Lemma heap_rel_length R h h' : heap_rel R h h' → (length h ≤ length h')%nat.
Proof.
  intros Hrel. destruct (decide (length h ≤ length h')%nat) as [|Hgt]; [done|].
  assert (Hlt : length h' < length h) by lia.
  destruct (lookup_lt_is_Some_2 h (length h') Hlt) as [d Hd].
  destruct (Hrel _ _ Hd) as (d' & Hd' & _).
  apply lookup_lt_Some in Hd'. lia.
Qed.

Lemma allocated_blocks_mono h h' bs :
  (length h ≤ length h')%nat → allocated_blocks h bs → allocated_blocks h' bs.
Proof.
  intros Hle Hall. eapply Forall_impl; [exact Hall|].
  intros b Hb r Hr. specialize (Hb r Hr). lia.
Qed.

Lemma dict_blocks_return bs w :
  allocated_blocks (heap w) bs →
  ∃ w' nb,
    collect dict_block bs [] w = (w', Ret nb) ∧
    heap_rel tagged (heap w) (heap w') ∧
    normalised bs nb ∧
    allocated_blocks (heap w') nb.
Proof.
  intros Halloc.
  assert (Hrefl : ∀ h, heap_rel tagged h h).
  { intros h. apply heap_rel_refl, tagged_refl. }
  assert (Hdone : ∀ h h' b o, block_done h b o → heap_rel tagged h h' →
                              block_done h' b o).
  { eauto using block_done_evolved, tagged_heap_evolved. }
  destruct (collect_returns (heap_rel tagged) block_done dict_block Hrefl
              tagged_heap_trans Hdone dict_block_inv
              (λ h b, ∀ r, b = VDict r → r < length h)) with (xs := bs) (acc := @nil pyval) (w := w)
    as (w' & nb & Hrun).
  - intros h h' b Hb Hrel r Hr. specialize (Hb r Hr).
    apply heap_rel_length in Hrel. lia.
  - intros b w0 Hb. unfold dict_block.
    destruct b; try (eexists _, _; reflexivity).
    destruct (lookup_lt_is_Some_2 (heap w0) l (Hb l eq_refl)) as [d Hl].
    rewrite (bind_ret_run _ _ _ _ _ (ensure_type_run _ _ _ Hl)). eauto.
  - exact Halloc.
  - exists w', nb. split; [done|].
    destruct (collect_inv (heap_rel tagged) block_done dict_block Hrefl
                tagged_heap_trans Hdone dict_block_inv bs [] w w' (Ret nb) Hrun)
      as [Htagged Hout].
    destruct (Hout nb eq_refl) as (ys & [= ->] & Hall).
    split_and!; [done | by eapply block_done_normalised |].
    eapply Forall2_Forall_r; [exact Hall|]. apply Forall_true.
    intros o b Hbo r ->.
    destruct (block_done_settled _ _ _ Hbo) as (r0 & [= <-] & (d & Hd & _)).
    by eapply lookup_lt_Some.
Qed.

Lemma dict_message_returns n l w :
  l < n → (n ≤ length (heap w))%nat → closed_below n (heap w) →
  ∃ w',
    format_step_with_system (VDict l) w = (w', Ret (VDict l)) ∧
    (length (heap w) ≤ length (heap w'))%nat ∧
    closed_below n (heap w').
Proof.
  intros Hl Hn Hclosed.
  destruct (lookup_lt_is_Some_2 (heap w) l) as [d Hd]; [lia|].
  unfold format_step_with_system. simpl.
  rewrite (bind_ret_run _ _ _ _ _ (dict_contains_run _ "content" _ _ Hd)).
  assert (Hsame : ∃ w', (w, Ret (VDict l)) = (w', Ret (VDict l)) ∧
                        (length (heap w) ≤ length (heap w'))%nat ∧
                        closed_below n (heap w')) by by exists w.
  destruct (d !! "content") as [c|] eqn:Hcontent.
  2:{ by rewrite bool_decide_eq_false_2 by (intros [? ?]; done). }
  rewrite bool_decide_eq_true_2 by eauto.
  rewrite (bind_ret_run _ _ _ _ _ (dict_getitem_run _ _ _ _ _ Hd Hcontent)).
  destruct c as [ | ? | ? | ? | ? | bs | ? | ? ]; try done. clear Hsame.
  destruct (dict_blocks_return bs w (Hclosed l d bs Hl Hd Hcontent))
    as (w1 & nb & Hloop & Htagged & Hnorm & Halloc).
  destruct (Htagged l d Hd) as (d1 & Hd1 & Hk1 & _).
  pose proof (heap_rel_length _ _ _ Htagged) as Hlen.
  rewrite bind_run, bind_run, Hloop.
  rewrite (dict_setitem_run _ "content" (VList nb) _ _ Hd1).
  eexists. split; [reflexivity|]. simpl. rewrite length_insert.
  split; [done|].
  intros l' d' bs' Hl' Hd' Hcontent'.
  unfold allocated_blocks. rewrite length_insert.
  destruct (decide (l' = l)) as [->|Hne].
  - rewrite list_lookup_insert_eq in Hd' by by eapply lookup_lt_Some.
    injection Hd' as <-. rewrite lookup_insert_eq in Hcontent'.
    by injection Hcontent' as <-.
  - rewrite list_lookup_insert_ne in Hd' by done.
    destruct (lookup_lt_is_Some_2 (heap w) l') as [d0 Hd0]; [lia|].
    destruct (Htagged l' d0 Hd0) as (d0' & Hd0' & Hk0 & _).
    assert (d0' = d') as -> by congruence.
    rewrite Hk0 in Hcontent' by done.
    eapply allocated_blocks_mono; [exact Hlen|]. by eapply Hclosed.
Qed.

(** X11.  For messages that are all dicts of the caller's heap, the
    request building of the streaming path never raises, whatever the
    dicts hold, provided the block lists they hold refer to allocated
    dicts: it returns the system message, if any, and the caller's own
    messages. *)
Theorem dict_messages_never_raise messages system_prompt w :
  closed_below (length (heap w)) (heap w) →
  Forall (λ m, ∃ l, m = VDict l ∧ l < length (heap w)) messages →
  ∃ w',
    _format_messages_with_system messages system_prompt w
      = (w', Ret ((if truthy system_prompt
                   then [VDict (length (heap w))] else []) ++ messages)).
Proof.
  intros Hclosed Hvalid.
  cut (∀ acc w0,
         (length (heap w) ≤ length (heap w0))%nat →
         closed_below (length (heap w)) (heap w0) →
         ∃ w', collect format_step_with_system messages acc w0
               = (w', Ret (acc ++ messages))).
  { intros Hloop. unfold _format_messages_with_system. rewrite bind_run.
    destruct (truthy system_prompt); simpl.
    - apply Hloop; simpl; [rewrite length_app; lia|].
      intros l d bs Hl Hd Hcontent.
      rewrite lookup_app_l in Hd by done.
      eapply allocated_blocks_mono; [|by eapply Hclosed].
      rewrite length_app. lia.
    - by apply Hloop. }
  clear Hclosed. induction messages as [|m messages IH]; intros acc w0 Hlen Hclosed.
  - exists w0. simpl. by rewrite app_nil_r.
  - apply Forall_cons in Hvalid as [(l & -> & Hl) Hvalid].
    destruct (dict_message_returns _ l w0 Hl Hlen Hclosed)
      as (w1 & Hstep & Hlen1 & Hclosed1).
    destruct (IH Hvalid (acc ++ [VDict l]) w1) as (w' & Hloop); [lia | done |].
    exists w'. simpl. rewrite (bind_ret_run _ _ _ _ _ Hstep), Hloop.
    by rewrite <- app_assoc.
Qed.

(** *** Creating the adapter *)

(** X12.  [create_openai_model] returns a model exactly when the
    configuration holds a non-empty API key; the model then carries the
    configured name, temperature and token limit and a client made with
    that key, two lines have been logged, and nothing has been sent. *)
Theorem create_openai_model_returns openai_config w w' model :
  create_openai_model openai_config w = (w', Ret model) ↔
  ∃ api_key,
    openai_api_key openai_config = Some api_key ∧ api_key ≠ "" ∧
    model = {| model_name := openai_model openai_config;
               temperature := openai_temperature openai_config;
               max_tokens := openai_max_tokens openai_config;
               client := OpenAI_new api_key |} ∧
    w' = World (heap w)
           (trace w ++
            [LogInfo ("Creating OpenAI model: " +:+ openai_model openai_config);
             ClientInit api_key;
             LogInfo ("Initialized OpenAI model: " +:+ openai_model openai_config)]).
Proof.
  split.
  - intros Hrun. destruct (openai_api_key openai_config) as [api_key|] eqn:Hkey.
    + destruct (decide (api_key = "")) as [->|Hne].
      * unfold create_openai_model in Hrun. by rewrite Hkey in Hrun.
      * rewrite (create_openai_model_with_key _ _ _ Hkey Hne) in Hrun.
        injection Hrun as <- <-. by exists api_key.
    + unfold create_openai_model in Hrun. by rewrite Hkey in Hrun.
  - intros (api_key & Hkey & Hne & -> & ->).
    by apply create_openai_model_with_key.
Qed.

(** *** Reading and changing the configuration *)

Section ConfigurationProperties.
Context `{Conversions}.

(** X13.  [update_config] can change the temperature and the token limit
    and nothing else: the model name and the client stay, whatever the
    keywords and also when it raises; a setting whose keyword is absent
    stays; and with neither keyword the adapter is returned as it was. *)
Theorem update_config_scope self kwargs :
  model_name (update_config self kwargs).1 = model_name self ∧
  client (update_config self kwargs).1 = client self ∧
  (kwargs !! "temperature" = None →
   temperature (update_config self kwargs).1 = temperature self) ∧
  (kwargs !! "max_tokens" = None →
   max_tokens (update_config self kwargs).1 = max_tokens self) ∧
  (kwargs !! "temperature" = None → kwargs !! "max_tokens" = None →
   update_config self kwargs = (self, Ret tt)).
Proof.
  unfold update_config.
  destruct (kwargs !! "temperature") as [v|];
    [destruct (py_float v) as [e|t]|];
    (destruct (kwargs !! "max_tokens") as [v'|];
     [destruct (py_int v') as [e'|n]|]); simpl; by split_and!.
Qed.

(** X14.  [update_config] is not all-or-nothing.  When the temperature is
    accepted and the token limit is refused, the call raises and the
    temperature has been changed all the same; when the temperature is
    refused, the call raises with the adapter as it was, the token limit
    untried. *)
Theorem update_config_partial self kwargs v :
  kwargs !! "temperature" = Some v →
  (∀ t v' e,
     py_float v = inr t →
     kwargs !! "max_tokens" = Some v' →
     py_int v' = inl e →
     update_config self kwargs = (set_temperature self t, Raise e)) ∧
  (∀ e,
     py_float v = inl e →
     update_config self kwargs = (self, Raise e)).
Proof.
  intros Hv. unfold update_config. rewrite Hv. split.
  - intros t v' e Ht Hv' He. by rewrite Ht, Hv', He.
  - intros e He. by rewrite He.
Qed.

(** X15.  What [update_config] has set is what [get_config] reports and
    what the next requests carry: after both settings are accepted, the
    configuration dict holds the old model name and the new temperature and
    token limit, and a request built for a call that does not override
    them carries the new values, while a keyword of the call still takes
    precedence. *)
Theorem update_config_then_get self kwargs v v' t n :
  kwargs !! "temperature" = Some v →
  kwargs !! "max_tokens" = Some v' →
  py_float v = inr t →
  py_int v' = inr n →
  ∃ self',
    update_config self kwargs = (self', Ret tt) ∧
    (∀ w, ∃ d,
       get_config self' w
         = (World (heap w ++ [d]) (trace w), Ret (VDict (length (heap w)))) ∧
       d !! "model" = Some (VStr (model_name self)) ∧
       d !! "temperature" = Some (VFloat t) ∧
       d !! "max_tokens" = Some (VInt n)) ∧
    (∀ formatted call_kwargs,
       call_kwargs !! "temperature" = None →
       call_kwargs !! "max_tokens" = None →
       req_temperature (generate_request self' formatted call_kwargs) = VFloat t ∧
       req_max_tokens (generate_request self' formatted call_kwargs) = VInt n ∧
       req_temperature (stream_request self' formatted call_kwargs) = VFloat t ∧
       req_max_tokens (stream_request self' formatted call_kwargs) = VInt n) ∧
    (∀ formatted call_kwargs x,
       call_kwargs !! "temperature" = Some x →
       req_temperature (generate_request self' formatted call_kwargs) = x ∧
       req_temperature (stream_request self' formatted call_kwargs) = x).
Proof.
  intros Hv Hv' Ht Hn.
  exists (set_max_tokens (set_temperature self t) n). split_and!.
  - unfold update_config. by rewrite Hv, Ht, Hv', Hn.
  - intros w. eexists. split; [reflexivity|].
    simpl. split_and!; by simplify_map_eq.
  - intros formatted call_kwargs Hnone Hnone'.
    unfold generate_request, stream_request, kwargs_get. simpl.
    by rewrite Hnone, Hnone'.
  - intros formatted call_kwargs x Hx.
    unfold generate_request, stream_request, kwargs_get. simpl.
    by rewrite Hx.
Qed.

End ConfigurationProperties.

(** *** The agent wrapper *)

(** X16.  [run_streaming] and [run] read the answer of the agent in the
    same way: when the agent returns, [run_streaming] yields exactly one
    chunk, which is what [run] returns; when the agent raises, both raise
    the same exception, each after one error record, and nothing is
    yielded.  The [stream] flag of [run] plays no part. *)
Theorem run_streaming_agrees agent user_input stream :
  match run agent user_input stream with
  | (_, Ret answer) =>
      (run_streaming agent user_input).1.2 = [answer] ∧
      (run_streaming agent user_input).2 = Ret tt
  | (records, Raise e) =>
      (run_streaming agent user_input).1.2 = [] ∧
      (run_streaming agent user_input).2 = Raise e ∧
      (agent user_input).2 = Raise e ∧
      last records = Some (RecordError "Error running agent: " e) ∧
      last (run_streaming agent user_input).1.1
        = Some (RecordError "Error in streaming: " e)
  end ∧
  run agent user_input stream = run agent user_input (negb stream).
Proof.
  split; [|done].
  unfold run, run_streaming.
  destruct (agent user_input) as [h [response|e]]; [|done].
  destruct (hasattr response "message"); [|done].
  destruct (hasattr (default VNone (attr response "message")) "content"); [|done].
  destruct (default VNone (attr (default VNone (attr response "message")) "content"))
    as [ | ? | ? | ? | ? | [|first_block rest] | ? | ? ]; try done.
  by destruct (hasattr first_block "text").
Qed.

(** X17.  [run] takes a text only out of a message that exposes [content]
    as an attribute.  When the message of the response is a dict, whatever
    it holds, [run] returns the whole message printed, and so does
    [run_streaming]. *)
Theorem run_prints_dict_message agent user_input stream h response l :
  agent user_input = (h, Ret response) →
  attr response "message" = Some (VDict l) →
  (run agent user_input stream).2 = Ret (VStr (py_str h (VDict l))) ∧
  (run_streaming agent user_input).1.2 = [VStr (py_str h (VDict l))].
Proof.
  intros Hagent Hmessage. unfold run, run_streaming.
  by rewrite Hagent, (hasattr_Some _ _ _ Hmessage), Hmessage.
Qed.
End Properties.

(** ** The theorems at sample inputs *)

#[local] Existing Instance demo_externals.

Lemma stream_event_order_witness :
  ∃ w' deltas,
    stream (demo_model (canned None truncated_chunks)) [VDict 0] None
      (Some "Be terse") (∅ : pydict) question_world = (w', Ret tt) ∧
    yielded (trace w') =
      yielded (trace question_world) ++
      [messageStart "assistant"; contentBlockStart None 0] ++
      deltas ++
      [contentBlockStop 0; messageStop "end_turn" None] ∧
    deltas = deltas_of truncated_chunks ∧
    Forall is_delta0 deltas ∧
    (length deltas ≤ length truncated_chunks)%nat.
Proof. eapply stream_event_order; reflexivity. Defined.

Lemma stop_reason_always_end_turn_witness :
  ∃ t,
    trace (stream (demo_model (canned None truncated_chunks)) [VDict 0] None
             (Some "Be terse") (∅ : pydict) question_world).1
      = trace question_world ++ t ∧
    Forall stops_with_end_turn (yielded t) ∧
    last (yielded t) = Some (messageStop "end_turn" None).
Proof.
  destruct (stop_reason_always_end_turn (demo_model (canned None truncated_chunks))
              [VDict 0] None (Some "Be terse") (∅ : pydict) question_world)
    as (t & Ht & Hstops & Hlast).
  exists t. split; [exact Ht|]. split; [exact Hstops|].
  eapply Hlast; reflexivity.
Defined.

Lemma generate_returns_first_choice_witness :
  (generate (demo_model (canned (Some "4") [])) [VDict 0] (∅ : pydict)
     question_world).2 = Ret "4" ∧
  (generate (demo_model (canned None [])) [VDict 0] (∅ : pydict)
     question_world).2 = Ret "".
Proof.
  split.
  - edestruct (generate_returns_first_choice (demo_model (canned (Some "4") []))
                 [VDict 0] (∅ : pydict) question_world) as [Hret _];
      [reflexivity | reflexivity | reflexivity | reflexivity | reflexivity
      | exact Hret].
  - eapply (generate_returns_first_choice (demo_model (canned None []))
              [VDict 0] (∅ : pydict) question_world);
      [reflexivity | reflexivity | reflexivity | reflexivity | reflexivity
      | left; reflexivity].
Defined.

Lemma create_openai_model_requires_key_witness :
  create_openai_model
    {| openai_api_key := Some ""; openai_model := "gpt-4o";
       openai_max_tokens := 4096; openai_temperature := 7 # 10 |} empty_world
  = (empty_world, Raise (ValueError missing_key_message)).
Proof. apply create_openai_model_requires_key. right. reflexivity. Defined.

Lemma format_messages_preserves_scalar_witness :
  ∃ w' formatted,
    _format_messages [VDict 0; greeting_object] question_world = (w', Ret formatted) ∧
    length formatted = length [VDict 0; greeting_object] ∧
    Forall2 (same_message (heap question_world) (heap w'))
      [VDict 0; greeting_object] formatted ∧
    ∀ self kwargs,
      kwargs !! "model" = None →
      kwargs !! "messages" = None →
      (generate self [VDict 0; greeting_object] kwargs question_world).1
        = World (heap w')
            (trace question_world ++
             [HttpRequest (generate_request self formatted kwargs)]) ∧
      req_messages (generate_request self formatted kwargs) = formatted.
Proof.
  apply format_messages_preserves_scalar.
  apply Forall_cons_2; [|apply Forall_cons_2; [|apply Forall_nil_2]].
  - split; [exists (VStr "user") | exists "2+2?"]; reflexivity.
  - split; [exists (VStr "assistant") | exists "hello"]; reflexivity.
Defined.

Lemma system_prompt_prepended_witness :
  ∃ w' rest,
    _format_messages_with_system [VDict 0] (Some "Be terse") question_world
      = (w', Ret (VDict 1 :: rest)) ∧
    length rest = 1 ∧
    field (heap w') (VDict 1) "role" = Some (VStr "system") ∧
    field (heap w') (VDict 1) "content" = Some (VStr "Be terse").
Proof.
  destruct (system_prompt_prepended [VDict 0] "Be terse" question_world)
    as (_ & Hfront & Hexample); [discriminate|].
  destruct (Hfront _ _ Hexample) as (rest & Heq & Hlen & Hrole & Hcontent & _).
  simpl in Heq. injection Heq as <-.
  eexists _, [VDict 0]. split; [exact Hexample|]. split; [exact Hlen|].
  split; [exact Hrole | exact Hcontent].
Defined.

Lemma unrecognised_message_coerced_witness :
  ∃ w1 formatted,
    _format_messages_with_system [VDict 0] None question_world = (w1, Ret formatted) ∧
    _format_messages ([VDict 0] ++ [VInt 42]) question_world =
      (World (heap w1 ++ [ {[ "role" := VStr "user";
                              "content" := VStr (py_str (heap w1) (VInt 42)) ]} ])
             (trace w1),
       Ret (formatted ++ [VDict (length (heap w1))])) ∧
    _format_messages_with_system ([VDict 0] ++ [VInt 42]) None question_world =
      (World (heap w1 ++ [ {[ "role" := VStr "user";
                              "content" := VStr (py_str (heap w1) (VInt 42)) ]} ])
             (trace w1),
       Ret (formatted ++ [VDict (length (heap w1))])).
Proof.
  destruct (unrecognised_message_coerced [VDict 0] (VInt 42) question_world)
    as [Hplain Hsystem]; [split; reflexivity|].
  exists question_world, [VDict 0]. split; [reflexivity|]. split.
  - apply Hplain. reflexivity.
  - apply Hsystem. reflexivity.
Defined.

Lemma content_block_collapse_witness :
  (∃ w' o,
     _format_messages_with_system ([] ++ [one_block_object]) None empty_world
       = (w', Ret ([] ++ [o])) ∧
     isinstance_dict o = true ∧
     field (heap w') o "role" = Some (VStr "user") ∧
     field (heap w') o "content" = Some (VStr "hi")) ∧
  (∃ w' o nb,
     _format_messages_with_system ([] ++ [VDict 2]) None two_block_world
       = (w', Ret ([] ++ [o])) ∧
     field (heap w') o "content" = Some (VList nb) ∧
     length nb = 2 ∧
     Forall (typed_block (heap w')) nb).
Proof.
  split.
  - destruct (content_block_collapse [] None empty_world empty_world []
                one_block_object eq_refl) as [Hsingle _].
    apply (Hsingle (VStr "user") (VObj [("text", VStr "hi")]) (VStr "hi"));
      reflexivity.
  - destruct (content_block_collapse [] None two_block_world two_block_world []
                (VDict 2) eq_refl) as [_ Hkept].
    apply (Hkept [VDict 0; VDict 1]); [reflexivity| |left; reflexivity].
    apply Forall_cons_2; [|apply Forall_cons_2; [|apply Forall_nil_2]].
    + eexists. split; [reflexivity|]. right. split; [reflexivity|].
      eexists; reflexivity.
    + eexists. split; [reflexivity|]. left. reflexivity.
Defined.

Lemma streaming_request_mutates_caller_witness :
  ∃ w' formatted,
    _format_messages_with_system [VDict 1] None one_block_world = (w', Ret formatted) ∧
    VDict 1 ∈ formatted ∧
    (∃ d' bs',
       heap w' !! 1 = Some d' ∧ d' !! "content" = Some (VList bs') ∧
       normalised [VDict 0] bs' ∧
       Forall (λ b, ∃ r, b = VDict r ∧ settled (heap w') r) bs') ∧
    typed_text (heap w') 0 ∧
    heap w' !! 0 ≠ heap one_block_world !! 0.
Proof.
  destruct (_format_messages_with_system [VDict 1] None one_block_world)
    as [w' [formatted|e]] eqn:Hrun; [|discriminate Hrun].
  destruct (streaming_request_mutates_caller [VDict 1] None one_block_world
              w' formatted 1
              {[ "role" := VStr "user"; "content" := VList [VDict 0] ]}
              [VDict 0] Hrun)
    as (Hin & Hcontent & Hblocks);
    [apply list_elem_of_here | reflexivity | reflexivity |].
  exists w', formatted. split; [reflexivity|]. split; [exact Hin|].
  split; [exact Hcontent|].
  apply (Hblocks 0 {[ "text" := VStr "hi" ]});
    [apply list_elem_of_here | reflexivity | reflexivity | eexists; reflexivity].
Defined.

Lemma structured_output_wraps_generate_witness :
  ∃ w' l,
    structured_output (demo_model (canned (Some "4") [])) [VDict 0] VNone None
      (Some "Be terse") (∅ : pydict) question_world = (w', Ret (VDict l)) ∧
    heap w' !! l = Some {[ "response" := VStr "4" ]}.
Proof.
  destruct (structured_output_wraps_generate (demo_model (canned (Some "4") []))
              [VDict 0] VNone None (Some "Be terse") (∅ : pydict) question_world)
    as [_ Hwraps].
  eexists _, _. split.
  - apply Hwraps. eexists _, _, _, _.
    split; [reflexivity|]. split; [reflexivity|]. split; reflexivity.
  - reflexivity.
Defined.

(** ** Where the collapse rule of the specification fails *)

(** A caller's dict message whose content is the list of one text block is
    passed on with that list as its content, not with the block's text. *)
Lemma dict_message_not_collapsed :
  field (heap one_block_world) (VDict 1) "content" = Some (VList [VDict 0]) ∧
  block_text (heap one_block_world) (VDict 0) = Some (VStr "hi") ∧
  (∃ w',
     _format_messages_with_system [VDict 1] None one_block_world
       = (w', Ret [VDict 1]) ∧
     field (heap w') (VDict 1) "content" = Some (VList [VDict 0]) ∧
     field (heap w') (VDict 1) "content" ≠ Some (VStr "hi")) ∧
  ¬ collapses_single_text_block.
Proof.
  assert (Hrun : _format_messages_with_system [VDict 1] None one_block_world
            = (World [ {[ "text" := VStr "hi"; "type" := VStr "text" ]};
                       {[ "role" := VStr "user"; "content" := VList [VDict 0] ]} ]
                 [],
               Ret [VDict 1])) by (vm_compute; reflexivity).
  split; [reflexivity|]. split; [reflexivity|]. split.
  - eexists. split; [exact Hrun|]. split; [reflexivity | discriminate].
  - intros Hclaim.
    destruct (Hclaim (VDict 1) one_block_world (VDict 0) (VStr "hi"))
      as (w' & o & Hrun' & Hfield); [by left | reflexivity | reflexivity |].
    rewrite Hrun in Hrun'. injection Hrun' as <- <-. discriminate Hfield.
Qed.

(** ** The further properties at sample inputs *)

#[local] Existing Instance demo_conversions.

Lemma generate_failures_witness :
  generate (demo_model (failing (APIError "offline"))) [VDict 0]
    ({[ "model" := VStr "gpt-5" ]} : pydict) question_world
  = (question_world, Raise (TypeError "got multiple values for keyword argument")) ∧
  (generate (demo_model (failing (APIError "offline"))) [VDict 0] (∅ : pydict)
     question_world).2 = Raise (APIError "offline") ∧
  (generate (demo_model speechless) [VDict 0] (∅ : pydict) question_world).2
  = Raise IndexError.
Proof.
  split; [|split].
  - destruct (generate_failures (demo_model (failing (APIError "offline")))
                [VDict 0] ({[ "model" := VStr "gpt-5" ]} : pydict) question_world)
      as (hx & formatted & Hfmt & Hrepeated & _).
    injection Hfmt as Hheap _. rewrite Hrepeated.
    + rewrite <- Hheap. reflexivity.
    + left. eexists. reflexivity.
  - destruct (generate_failures (demo_model (failing (APIError "offline")))
                [VDict 0] (∅ : pydict) question_world)
      as (hx & formatted & Hfmt & _ & Hsent).
    destruct (Hsent eq_refl eq_refl) as [Herror _].
    rewrite (Herror (APIError "offline") eq_refl). reflexivity.
  - destruct (generate_failures (demo_model speechless)
                [VDict 0] (∅ : pydict) question_world)
      as (hx & formatted & Hfmt & _ & Hsent).
    destruct (Hsent eq_refl eq_refl) as [_ Hempty].
    rewrite (Hempty {| choices := [] |} eq_refl eq_refl). reflexivity.
Defined.


Lemma stream_raise_unterminated_witness :
  ∃ t,
    trace (stream (demo_model (breaking truncated_chunks (APIError "reset")))
             [VDict 0] None None (∅ : pydict) question_world).1
      = trace question_world ++ t ∧
    unterminated (yielded t).
Proof.
  apply (stream_raise_unterminated
           (demo_model (breaking truncated_chunks (APIError "reset")))
           [VDict 0] None None (∅ : pydict) question_world (APIError "reset")).
  reflexivity.
Defined.

Lemma stream_text_preserved_witness :
  ∃ t,
    trace (stream (demo_model (canned None truncated_chunks)) [VDict 0] None None
             (∅ : pydict) question_world).1 = trace question_world ++ t ∧
    join (delta_texts (yielded t)) = join (first_content <$> truncated_chunks) ∧
    Forall (λ text, text ≠ "") (delta_texts (yielded t)).
Proof. eapply stream_text_preserved; reflexivity. Defined.

Lemma text_block_without_text_witness :
  _format_messages_with_system ([] ++ [textless_message]) None textless_world
    = (textless_world, Raise (KeyError "text")) ∧
  (∀ self tool_specs kwargs,
     stream self ([] ++ [textless_message]) tool_specs None kwargs textless_world
       = (textless_world, Raise (KeyError "text"))) ∧
  (∀ self schema tool_specs kwargs,
     structured_output self ([] ++ [textless_message]) schema tool_specs None
       kwargs textless_world = (textless_world, Raise (KeyError "text"))) ∧
  trace textless_world = trace textless_world.
Proof.
  apply (text_block_without_text [] None textless_world textless_world []
           textless_message (VStr "user") 0 {[ "type" := VStr "text" ]});
    reflexivity.
Defined.

Lemma streaming_request_length_witness :
  ∃ w' formatted,
    _format_messages_with_system [VDict 0] (Some "Be terse") question_world
      = (w', Ret formatted) ∧
    length formatted = 2.
Proof.
  destruct (_format_messages_with_system [VDict 0] (Some "Be terse") question_world)
    as [w' [formatted|e]] eqn:Hrun; [|discriminate Hrun].
  exists w', formatted. split; [reflexivity|].
  apply (streaming_request_length [VDict 0] (Some "Be terse") question_world
           w' formatted Hrun).
Defined.

Lemma structured_output_drops_system_prompt_witness :
  ∃ hx plain,
    _format_messages [VDict 0]
      (World [ {[ "role" := VStr "user"; "content" := VStr "2+2?" ]};
               {[ "role" := VStr "system"; "content" := VStr "Be terse" ]} ] [])
    = (World ([ {[ "role" := VStr "user"; "content" := VStr "2+2?" ]};
                {[ "role" := VStr "system"; "content" := VStr "Be terse" ]} ] ++ hx)
         (trace question_world), Ret plain) ∧
    length plain = 1.
Proof.
  destruct (structured_output_drops_system_prompt
              (demo_model (canned (Some "4") [])) [VDict 0] VNone None
              (Some "Be terse") (∅ : pydict) question_world
              (World [ {[ "role" := VStr "user"; "content" := VStr "2+2?" ]};
                       {[ "role" := VStr "system"; "content" := VStr "Be terse" ]} ]
                 [])
              [VDict 1; VDict 0])
    as (hx & plain & Hplain & Hlen & _); [reflexivity..|].
  exists hx, plain. split; [exact Hplain | exact Hlen].
Defined.

Lemma request_builders_agree_witness :
  _format_messages_with_system [VDict 0; greeting_object] None question_world
  = _format_messages [VDict 0; greeting_object] question_world.
Proof.
  apply request_builders_agree.
  apply Forall_cons_2; [|apply Forall_cons_2; [|apply Forall_nil_2]].
  - split; [exists (VStr "user") | exists "2+2?"]; reflexivity.
  - split; [exists (VStr "assistant") | exists "hello"]; reflexivity.
Defined.

Lemma request_building_idempotent_witness :
  ∃ w1,
    (_format_messages_with_system [VDict 2] None two_block_world).1 = w1 ∧
    _format_messages_with_system [VDict 2] None w1 = (w1, Ret [VDict 2]).
Proof.
  destruct (_format_messages_with_system [VDict 2] None two_block_world)
    as [w1 [formatted|e]] eqn:Hrun; [|discriminate Hrun].
  exists w1. split; [reflexivity|].
  apply (request_building_idempotent [VDict 2] None two_block_world w1 formatted);
    [|exact Hrun].
  apply Forall_cons_2; [reflexivity | apply Forall_nil_2].
Defined.

Lemma dict_messages_never_raise_witness :
  ∃ w',
    _format_messages_with_system [VDict 2] (Some "Be terse") two_block_world
      = (w', Ret ([VDict 3] ++ [VDict 2])).
Proof.
  apply (dict_messages_never_raise [VDict 2] (Some "Be terse") two_block_world).
  - intros l d bs Hl Hd Hcontent.
    destruct l as [|[|[|l]]]; simpl in Hl; [..|lia];
      injection Hd as <-; vm_compute in Hcontent; try discriminate Hcontent.
    injection Hcontent as <-.
    apply Forall_cons_2; [|apply Forall_cons_2; [|apply Forall_nil_2]];
      intros r [= <-]; simpl; lia.
  - apply Forall_cons_2; [|apply Forall_nil_2].
    exists 2. split; [reflexivity | simpl; lia].
Defined.

Lemma create_openai_model_returns_witness :
  create_openai_model
    {| openai_api_key := Some "sk-test"; openai_model := "gpt-4o";
       openai_max_tokens := 4096; openai_temperature := 7 # 10 |} empty_world
  = (World [] [LogInfo "Creating OpenAI model: gpt-4o"; ClientInit "sk-test";
               LogInfo "Initialized OpenAI model: gpt-4o"],
     Ret (demo_model offline)).
Proof.
  apply create_openai_model_returns. exists "sk-test".
  split; [reflexivity|]. split; [discriminate|]. split; reflexivity.
Defined.

Lemma update_config_scope_witness :
  update_config (demo_model offline) ({[ "model" := VStr "gpt-5" ]} : pydict)
  = (demo_model offline, Ret tt).
Proof.
  apply (update_config_scope (demo_model offline)
           ({[ "model" := VStr "gpt-5" ]} : pydict)); reflexivity.
Defined.

Lemma update_config_partial_witness :
  update_config (demo_model offline)
    ({[ "temperature" := VInt 0; "max_tokens" := VStr "many" ]} : pydict)
  = (set_temperature (demo_model offline) (inject_Z 0),
     Raise (TypeError "int() argument must be a string or a real number")) ∧
  update_config (demo_model offline)
    ({[ "temperature" := VNone; "max_tokens" := VInt 16 ]} : pydict)
  = (demo_model offline,
     Raise (TypeError "float() argument must be a string or a real number")).
Proof.
  split.
  - eapply (update_config_partial (demo_model offline)
              ({[ "temperature" := VInt 0; "max_tokens" := VStr "many" ]} : pydict)
              (VInt 0)); reflexivity.
  - eapply (update_config_partial (demo_model offline)
              ({[ "temperature" := VNone; "max_tokens" := VInt 16 ]} : pydict)
              VNone); reflexivity.
Defined.

Lemma update_config_then_get_witness :
  ∃ self',
    update_config (demo_model offline)
      ({[ "temperature" := VFloat (1 # 5); "max_tokens" := VInt 16 ]} : pydict)
    = (self', Ret tt) ∧
    req_temperature (stream_request self' [] (∅ : pydict)) = VFloat (1 # 5) ∧
    req_max_tokens (stream_request self' [] (∅ : pydict)) = VInt 16 ∧
    req_temperature
      (generate_request self' [] ({[ "temperature" := VInt 1 ]} : pydict))
    = VInt 1.
Proof.
  destruct (update_config_then_get (demo_model offline)
              ({[ "temperature" := VFloat (1 # 5); "max_tokens" := VInt 16 ]} : pydict)
              (VFloat (1 # 5)) (VInt 16) (1 # 5) 16)
    as (self' & Hupdate & _ & Hdefault & Hoverride); [reflexivity..|].
  exists self'. split; [exact Hupdate|].
  destruct (Hdefault [] (∅ : pydict)) as (_ & _ & Ht & Hn); [reflexivity..|].
  split; [exact Ht|]. split; [exact Hn|].
  apply (Hoverride [] ({[ "temperature" := VInt 1 ]} : pydict) (VInt 1)).
  reflexivity.
Defined.

Lemma run_prints_dict_message_witness :
  (run dict_answer "Hi" false).2
    = Ret (VStr (py_str (dict_answer "Hi").1 (VDict 0))) ∧
  (run_streaming dict_answer "Hi").1.2
    = [VStr (py_str (dict_answer "Hi").1 (VDict 0))].
Proof.
  apply (run_prints_dict_message dict_answer "Hi" false
           (dict_answer "Hi").1 (VObj [("message", VDict 0)]) 0); reflexivity.
Defined.
